(** * GitHub search tool: a shallow embedding of
      [src/github_search_agent/github_search_tool.py]

    The development follows the Python module top to bottom: the text
    primitives of [str] the module relies on, the JSON values exchanged
    with the command line and with the provider, the two dataclasses, the
    query builder, the suggestion engine, README retrieval, the search
    loop, the output envelope, parameter parsing and [main].

    Conventions.
    - A Python [str] is a [string]; its characters are read as the code
      points below 256, and [len] is [String.length].
    - A JSON value is a [json]; a JSON object (a Python [dict]) is a
      [gmap string json]. JSON numbers with a fraction or an exponent
      (Python [float]) are outside the model.
    - The fields of [SearchParameters] have the types the dataclass
      declares. Python does not check them: a document whose entries
      have other JSON types is stored as it is and fails, or misbehaves,
      where a field is first used. Parsing such a document gives [None]
      here, and the properties speak of the other documents.
    - The records of the provider are not typed: the fields of
      [Repository] hold the JSON values the provider sent.
    - Network access is explicit: a computation threads the chronological
      list of requests issued so far, and the provider answers a request
      as a function of that history.
    - Exceptions are values of [exn]; a computation returns [inl e] when
      it raises [e].
    - [base64.b64decode] and [bytes.decode] are parameters of the
      development, as the provider is.
    - Finding a token ([__init__], [_get_token], [_build_headers]) is
      modelled apart from [main], as a function of the environment and
      of what the [gh] command does.

    [src/scripts/github_search_tool.py] is an earlier copy of the same
    module, without [fallback_search] and without the suggestion engine;
    its [format_output] is in [Scripts]. *)

From Stdlib Require Import ZArith String Ascii DecimalString.
From stdpp Require Import gmap strings list fin_maps.

Open Scope Z_scope.

(** ** Text primitives of Python's [str] *)

Module Str.

Definition dquote : string := String "034"%char EmptyString.
Definition newline : string := String "010"%char EmptyString.
Definition space : string := String " "%char EmptyString.

Definition is_empty (s : string) : bool :=
  match s with EmptyString => true | String _ _ => false end.

(** [str.isspace] on one character: tab to carriage return, the four
    separators U+001C..U+001F, space, U+0085 and U+00A0. *)
Definition isspace (c : ascii) : bool :=
  let n := nat_of_ascii c in
  ((9 <=? n) && (n <=? 13) || (28 <=? n) && (n <=? 32)
   || (n =? 133) || (n =? 160))%nat.

(** [str.lower] on one character: A..Z, and the capital letters
    U+00C0..U+00DE other than the multiplication sign U+00D7. *)
Definition lower_char (c : ascii) : ascii :=
  let n := nat_of_ascii c in
  if ((65 <=? n) && (n <=? 90)
      || (192 <=? n) && (n <=? 222) && negb (n =? 215))%nat
  then ascii_of_nat (n + 32) else c.

Fixpoint lower (s : string) : string :=
  match s with
  | EmptyString => EmptyString
  | String c s' => String (lower_char c) (lower s')
  end.

(** [s.split()]: the maximal runs of non-whitespace characters. [tok]
    is the run being read. *)
Fixpoint split_from (tok s : string) : list string :=
  match s with
  | EmptyString => if is_empty tok then [] else [tok]
  | String c s' =>
      if isspace c
      then (if is_empty tok then split_from EmptyString s'
            else tok :: split_from EmptyString s')
      else split_from (tok +:+ String c EmptyString) s'
  end.

Definition split (s : string) : list string := split_from EmptyString s.

(** [sep.join(parts)] *)
Fixpoint join (sep : string) (parts : list string) : string :=
  match parts with
  | [] => EmptyString
  | [x] => x
  | x :: rest => x +:+ sep +:+ join sep rest
  end.

(** [sub in s] *)
Fixpoint contains (sub s : string) : bool :=
  String.prefix sub s
  || match s with
     | EmptyString => false
     | String _ s' => contains sub s'
     end.

(** [s.replace(old, new)]: every occurrence of [old], left to right,
    without overlap. [skip] counts the characters of a replaced
    occurrence that are still to be dropped. *)
Fixpoint replace_from (old new : string) (skip : nat) (s : string) : string :=
  match s with
  | EmptyString => EmptyString
  | String c s' =>
      match skip with
      | S k => replace_from old new k s'
      | O =>
          if String.prefix old s
          then new +:+ replace_from old new (String.length old - 1) s'
          else String c (replace_from old new O s')
      end
  end.

(** With an empty [old], Python puts [new] before every character and
    at the end. *)
Fixpoint interleave (new s : string) : string :=
  match s with
  | EmptyString => new
  | String c s' => new +:+ String c (interleave new s')
  end.

Definition replace (old new s : string) : string :=
  if is_empty old then interleave new s else replace_from old new O s.

(** [str(n)] for an [int] *)
Definition of_int (z : Z) : string := NilZero.string_of_int (Z.to_int z).

(** [s[:n]] *)
Definition slice_to (n : nat) (s : string) : string :=
  String.substring 0 n s.


(** [s.lstrip()], [s.rstrip()] and [s.strip()] *)
Fixpoint lstrip (s : string) : string :=
  match s with
  | EmptyString => EmptyString
  | String c s' => if Str.isspace c then lstrip s' else s
  end.

Fixpoint rstrip (s : string) : string :=
  match s with
  | EmptyString => EmptyString
  | String c s' =>
      let rest := rstrip s' in
      if Str.isspace c && Str.is_empty rest then EmptyString
      else String c rest
  end.

Definition strip (s : string) : string := rstrip (lstrip s).

(** A text without whitespace, and a text of whitespace only. *)
Fixpoint no_space (s : string) : bool :=
  match s with
  | EmptyString => true
  | String c s' => negb (Str.isspace c) && no_space s'
  end.

Fixpoint all_space (s : string) : bool :=
  match s with
  | EmptyString => true
  | String c s' => Str.isspace c && all_space s'
  end.

(** A token: a non-empty text without whitespace. *)
Definition is_token (s : string) : bool :=
  negb (Str.is_empty s) && no_space s.

End Str.

(** ** JSON values *)

#[warning="-register-all"]
Inductive json :=
| JNull
| JBool (b : bool)
| JInt (z : Z)
| JStr (s : string)
| JArr (l : list json)
| JObj (d : gmap string json).

(** Truth value of a Python object that came out of [json.loads]. *)
Definition truthy (v : json) : bool :=
  match v with
  | JNull => false
  | JBool b => b
  | JInt z => negb (z =? 0)
  | JStr s => negb (Str.is_empty s)
  | JArr l => negb (bool_decide (length l = 0%nat))
  | JObj d => negb (bool_decide (size d = 0%nat))
  end.

(** What [json.loads] and [response.json()] give: a value, or a
    [JSONDecodeError] with its message. *)
Inductive loads_result :=
| LoadError (msg : string)
| Loaded (v : json).

(** ** Exceptions *)

Inductive exn :=
| ValueError (msg : string)
| RuntimeError (msg : string)
| JSONDecodeError (msg : string)
| Base64Error
| UnicodeDecodeError
| HTTPStatusError (status_code : Z) (text : string)
| RequestError (msg : string)
| TypeError
| KeyError (key : string)
| AttributeError.

(** [isinstance(e, ValueError)]: [json.JSONDecodeError], [binascii.Error]
    and [UnicodeDecodeError] are subclasses of [ValueError]. *)
Definition is_ValueError (e : exn) : bool :=
  match e with
  | ValueError _ | JSONDecodeError _ | Base64Error | UnicodeDecodeError => true
  | _ => false
  end.

Definition is_RuntimeError (e : exn) : bool :=
  match e with
  | RuntimeError _ => true
  | _ => false
  end.

(** [str(e)]. The module chooses the text of the [ValueError]s and
    [RuntimeError]s it raises, and a [KeyError] prints its key in
    quotes; for the other exceptions of the interpreter and of the
    libraries the class name stands for the message, which the module
    does not determine. *)
Definition str_exn (e : exn) : string :=
  match e with
  | ValueError msg | RuntimeError msg | JSONDecodeError msg
  | RequestError msg => msg
  | Base64Error => "binascii.Error"
  | UnicodeDecodeError => "UnicodeDecodeError"
  | HTTPStatusError _ _ => "HTTPStatusError"
  | TypeError => "TypeError"
  | KeyError key => "'" +:+ key +:+ "'"
  | AttributeError => "AttributeError"
  end.

(** ** The search parameters *)

(** The dataclass [SearchParameters]. *)
Record SearchParameters := {
  keywords : string;
  language : option string;
  min_stars : Z;
  topic : option string;
  sort_by : string;
  max_results : Z;
  include_readme : bool;
  fallback_search : bool
}.

(** The defaults of the dataclass, for a given [keywords]. *)
Definition default_parameters (kw : string) : SearchParameters :=
  {| keywords := kw; language := None; min_stars := 0; topic := None;
     sort_by := "stars"; max_results := 5; include_readme := true;
     fallback_search := true |}.

(** Truth value of an [Optional[str]]: [None] and the empty text are
    false. *)
Definition truthy_opt (o : option string) : bool :=
  match o with
  | Some s => negb (Str.is_empty s)
  | None => false
  end.

(** The text an f-string prints for an [Optional[str]]. *)
Definition fmt_opt (o : option string) : string :=
  match o with
  | Some s => s
  | None => "None"
  end.

(** ** Query builder *)

(** [GitHubSearchTool._build_search_query] *)
Definition _build_search_query (params : SearchParameters) : string :=
  let query_parts := [keywords params] in
  let query_parts :=
    if truthy_opt (language params)
    then query_parts ++ ["language:" +:+ fmt_opt (language params)]
    else query_parts in
  let query_parts :=
    if min_stars params >? 0
    then query_parts ++ ["stars:>=" +:+ Str.of_int (min_stars params)]
    else query_parts in
  let query_parts :=
    if truthy_opt (topic params)
    then query_parts ++ ["topic:" +:+ fmt_opt (topic params)]
    else query_parts in
  Str.join Str.space query_parts.

(** Parameters that differ from [params] in one field. *)
Definition with_language (params : SearchParameters) (v : option string)
    : SearchParameters :=
  {| keywords := keywords params; language := v;
     min_stars := min_stars params; topic := topic params;
     sort_by := sort_by params; max_results := max_results params;
     include_readme := include_readme params;
     fallback_search := fallback_search params |}.

Definition with_topic (params : SearchParameters) (v : option string)
    : SearchParameters :=
  {| keywords := keywords params; language := language params;
     min_stars := min_stars params; topic := v;
     sort_by := sort_by params; max_results := max_results params;
     include_readme := include_readme params;
     fallback_search := fallback_search params |}.

Definition with_fallback_search (params : SearchParameters) (v : bool)
    : SearchParameters :=
  {| keywords := keywords params; language := language params;
     min_stars := min_stars params; topic := topic params;
     sort_by := sort_by params; max_results := max_results params;
     include_readme := include_readme params;
     fallback_search := v |}.

(** The query as section 4.1 of the specification words it: the
    keywords, then one qualifier for each filter that is set, in the
    order language, stars, topic, joined by single spaces. A text filter
    is set when it holds a non-empty text. *)
Definition text_qualifier (name : string) (filter : option string)
    : list string :=
  match filter with
  | Some (String c s) => [name +:+ String c s]
  | _ => []
  end.

Definition stars_qualifier (min_stars : Z) : list string :=
  if bool_decide (0 < min_stars)
  then ["stars:>=" +:+ Str.of_int min_stars]
  else [].

Definition build_query_spec (params : SearchParameters) : string :=
  Str.join " "
    (keywords params ::
       text_qualifier "language:" (language params)
       ++ stars_qualifier (min_stars params)
       ++ text_qualifier "topic:" (topic params)).

(** ** Suggestion engine *)

Definition abbreviations : list (string * string) :=
  [ ("ml", "machine learning");
    ("ai", "artificial intelligence");
    ("dl", "deep learning");
    ("nlp", "natural language processing");
    ("cv", "computer vision");
    ("eda", "exploratory data analysis");
    ("etl", "extract transform load");
    ("api", "application programming interface");
    ("cli", "command line");
    ("gui", "graphical user interface");
    ("db", "database");
    ("auth", "authentication");
    ("auto", "automated OR automatic") ].

Definition topic_suggestions : list (string * string) :=
  [ ("data analysis", "data-science");
    ("machine learning", "machine-learning");
    ("web framework", "web");
    ("automation", "automation");
    ("visualization", "data-visualization");
    ("api", "api");
    ("cli", "cli");
    ("testing", "testing") ].

(** The loop over [abbreviations.items()]; it leaves at the first
    abbreviation that is one of the whitespace-separated tokens. *)
Fixpoint abbreviation_loop (items : list (string * string))
    (keywords : string) (suggestions : list string) : list string :=
  match items with
  | [] => suggestions
  | (abbr, expansion) :: rest =>
      if bool_decide (abbr ∈ Str.split keywords)
      then
        let new_keywords := Str.replace abbr expansion keywords in
        suggestions ++
          ["Try expanding abbreviations: " +:+ Str.dquote +:+ new_keywords
             +:+ Str.dquote]
      else abbreviation_loop rest keywords suggestions
  end.

(** The loop over [topic_suggestions.items()]; it leaves at the first
    key that occurs in the lowercased keywords. *)
Fixpoint topic_loop (items : list (string * string))
    (keywords : string) (suggestions : list string) : list string :=
  match items with
  | [] => suggestions
  | (keyword, topic) :: rest =>
      if Str.contains keyword keywords
      then
        suggestions ++
          ["Try adding topic filter: topic:" +:+ Str.dquote +:+ topic
             +:+ Str.dquote]
      else topic_loop rest keywords suggestions
  end.

(** [GitHubSearchTool._generate_search_suggestions] *)
Definition _generate_search_suggestions (params : SearchParameters)
    : list string :=
  let suggestions := [] in
  let keywords_l := Str.lower (keywords params) in
  let suggestions := abbreviation_loop abbreviations keywords_l suggestions in
  let suggestions :=
    if min_stars params >? 100
    then suggestions ++
           ["Try lowering min_stars from " +:+ Str.of_int (min_stars params)
              +:+ " to " +:+ Str.of_int (min_stars params / 2) +:+ " or 50"]
    else suggestions in
  let suggestions :=
    if truthy_opt (language params)
    then suggestions ++
           ["Try searching without the language filter (remove language: "
              +:+ Str.dquote +:+ fmt_opt (language params) +:+ Str.dquote
              +:+ ")"]
    else suggestions in
  let keyword_list := Str.split (keywords params) in
  let suggestions :=
    if (2 <? length keyword_list)%nat
    then
      let shorter := Str.join Str.space (take 2 keyword_list) in
      suggestions ++
        ["Try using fewer keywords: " +:+ Str.dquote +:+ shorter
           +:+ Str.dquote]
    else suggestions in
  let suggestions :=
    if negb (truthy_opt (topic params))
    then topic_loop topic_suggestions keywords_l suggestions
    else suggestions in
  if bool_decide (suggestions = [])
  then ["Try using more general or alternative keywords";
        "Check spelling and try common synonyms"]
  else suggestions.


(** ** The provider *)

(** The two requests the module sends: [GET /search/repositories] with
    its four query parameters, and [GET /repos/{full_name}/readme]. The
    README request is identified by the value interpolated into its
    path. *)
Inductive request :=
| SearchRequest (q sort order : string) (per_page : Z)
| ReadmeRequest (full_name : json).

(** An answer of the transport: [httpx.RequestError] (no response was
    obtained), or a response with its status code, its text and the
    result of [response.json()]. *)
Inductive response :=
| TransportError (msg : string)
| Reply (status_code : Z) (text : string) (body : loads_result).

(** [response.is_success], which [raise_for_status] tests. *)
Definition is_success (status_code : Z) : bool :=
  (200 <=? status_code) && (status_code <=? 299).

(** ** The repository record *)

Module Repository.
(** The dataclass [Repository]. The fields copied from the provider's
    record hold whatever JSON value the provider sent. *)
Record t := {
  name : json;
  full_name : json;
  description : json;
  url : json;
  stars : json;
  forks : json;
  language : json;
  topics : json;
  created_at : json;
  updated_at : json;
  pushed_at : json;
  open_issues : json;
  license : json;
  readme_content : option string
}.

(** [repo.readme_content = v] *)
Definition set_readme_content (repo : t) (v : option string) : t :=
  {| name := name repo; full_name := full_name repo;
     description := description repo; url := url repo;
     stars := stars repo; forks := forks repo; language := language repo;
     topics := topics repo; created_at := created_at repo;
     updated_at := updated_at repo; pushed_at := pushed_at repo;
     open_issues := open_issues repo; license := license repo;
     readme_content := v |}.
End Repository.

(** ** README truncation *)

Definition max_length : nat := 5000.

Definition truncation_marker : string :=
  Str.newline +:+ Str.newline +:+ "[README truncated...]".

(** The last step of [_fetch_readme]: [decoded[:max_length]] and the
    marker when [len(decoded) > max_length]. *)
Definition truncate_readme (decoded : string) : string :=
  if (max_length <? String.length decoded)%nat
  then Str.slice_to max_length decoded +:+ truncation_marker
  else decoded.

(** ** Computations that call the provider and may raise *)

(** The state is the chronological list of the requests sent so far. *)
Definition M (A : Type) : Type := list request → (exn + A) * list request.

Definition ret {A} (a : A) : M A := λ calls, (inr a, calls).

Definition raise {A} (e : exn) : M A := λ calls, (inl e, calls).

Definition bind {A B} (m : M A) (k : A → M B) : M B :=
  λ calls,
    match m calls with
    | (inl e, calls') => (inl e, calls')
    | (inr a, calls') => k a calls'
    end.

(** [try: m  except ...: handler]; a handler that does not catch an
    exception raises it again. *)
Definition catch {A} (m : M A) (handler : exn → M A) : M A :=
  λ calls,
    match m calls with
    | (inl e, calls') => handler e calls'
    | (inr a, calls') => (inr a, calls')
    end.

Notation "x <- m ;; k" := (bind m (λ x, k))
  (at level 100, m at next level, right associativity).

(** Operations of Python objects that raise on the wrong type. *)

(** [v.get(key, default)]: only a [dict] has the method. *)
Definition get_method (v : json) (key : string) (dflt : json) : M json :=
  match v with
  | JObj d => ret (default dflt (d !! key))
  | _ => raise AttributeError
  end.

(** [v[key]] for a text key. *)
Definition subscript (v : json) (key : string) : M json :=
  match v with
  | JObj d =>
      match d !! key with
      | Some x => ret x
      | None => raise (KeyError key)
      end
  | _ => raise TypeError
  end.

(** [iter(v)]: the elements of a list, the one-character texts of a
    text, the keys of a dict. A dict's keys are all texts, on which the
    loop body of [search_repositories] raises at once, so their order
    does not show. *)
Definition iterate (v : json) : M (list json) :=
  match v with
  | JArr l => ret l
  | JStr s => ret ((λ c, JStr (String c EmptyString)) <$> list_ascii_of_string s)
  | JObj d => ret (JStr <$> (map_to_list d).*1)
  | _ => raise TypeError
  end.

Definition sort_mapping : gmap string string :=
  <["stars" := "stars"]> (<["forks" := "forks"]> (<["updated" := "updated"]>
    (<["help-wanted-issues" := "help-wanted-issues"]> ∅))).

(** ** The output envelope *)

(** One entry of [results] in [format_output]. *)
Definition repository_dict (repo : Repository.t) : json :=
  JObj (<["name" := Repository.name repo]>
       (<["full_name" := Repository.full_name repo]>
       (<["description" := Repository.description repo]>
       (<["url" := Repository.url repo]>
       (<["stars" := Repository.stars repo]>
       (<["forks" := Repository.forks repo]>
       (<["language" := Repository.language repo]>
       (<["topics" := Repository.topics repo]>
       (<["created_at" := Repository.created_at repo]>
       (<["updated_at" := Repository.updated_at repo]>
       (<["pushed_at" := Repository.pushed_at repo]>
       (<["open_issues" := Repository.open_issues repo]>
       (<["license" := Repository.license repo]>
       (<["readme" := from_option JStr JNull (Repository.readme_content repo)]>
          ∅)))))))))))))).

Definition no_results_message : string :=
  "No repositories found matching your criteria. See suggestions for alternative searches.".

(** [GitHubSearchTool.format_output]; [params] is [None] when the
    caller leaves the argument out. *)
Definition format_output (repositories : list Repository.t)
    (params : option SearchParameters) : gmap string json :=
  let results := repository_dict <$> repositories in
  let output : gmap string json :=
    <["success" := JBool true]>
      (<["count" := JInt (Z.of_nat (length results))]>
         (<["repositories" := JArr results]> ∅)) in
  match (length results =? 0)%nat, params with
  | true, Some params =>
      <["message" := JStr no_results_message]>
        (<["suggestions" := JArr (JStr <$> _generate_search_suggestions params)]>
           output)
  | _, _ => output
  end.

(** [format_output] of the earlier copy under [src/scripts]: it takes
    no parameters and attaches nothing to an empty result. *)
Module Scripts.
Definition format_output (repositories : list Repository.t)
    : gmap string json :=
  let results := repository_dict <$> repositories in
  <["success" := JBool true]>
    (<["count" := JInt (Z.of_nat (length results))]>
       (<["repositories" := JArr results]> ∅)).
End Scripts.

(** The dict [error_output] of the three handlers of [main]. *)
Definition error_output (e : exn) (error_type : string) : gmap string json :=
  <["success" := JBool false]>
    (<["error" := JStr (str_exn e)]>
       (<["error_type" := JStr error_type]> ∅)).

(** ** Parameter parsing *)

(** ["keywords" in data]: a key of a dict, an element of a list, a piece
    of a text; any other value is not a container. *)
Definition has_keywords (data : json) : exn + bool :=
  match data with
  | JObj d => inr (bool_decide (is_Some (d !! "keywords")))
  | JArr l =>
      inr (existsb (λ v, match v with
                         | JStr s => bool_decide (s = "keywords")
                         | _ => false
                         end) l)
  | JStr s => inr (Str.contains "keywords" s)
  | _ => inl TypeError
  end.

(** Reading one entry of the document at the type the dataclass
    declares for it. The result is [None] when the entry holds a value
    of another JSON type: Python stores such a value unchecked, and what
    happens then is outside the model. *)
Definition str_entry (d : gmap string json) (key : string) (dflt : string)
    : option string :=
  match d !! key with
  | None => Some dflt
  | Some (JStr s) => Some s
  | Some _ => None
  end.

Definition optional_str_entry (d : gmap string json) (key : string)
    : option (option string) :=
  match d !! key with
  | None | Some JNull => Some None
  | Some (JStr s) => Some (Some s)
  | Some _ => None
  end.

Definition int_entry (d : gmap string json) (key : string) (dflt : Z)
    : option Z :=
  match d !! key with
  | None => Some dflt
  | Some (JInt z) => Some z
  | Some _ => None
  end.

Definition bool_entry (d : gmap string json) (key : string) (dflt : bool)
    : option bool :=
  match d !! key with
  | None => Some dflt
  | Some (JBool b) => Some b
  | Some _ => None
  end.

(** [min(data.get("max_results", 5), 10)]: [min] raises [TypeError] on a
    value that does not compare with an [int]; a JSON boolean compares
    but stays a [bool], which the dataclass does not declare. *)
Definition max_results_entry (d : gmap string json) : option (exn + Z) :=
  match d !! "max_results" with
  | None => Some (inr (Z.min 5 10))
  | Some (JInt z) => Some (inr (Z.min z 10))
  | Some (JBool _) => None
  | Some _ => Some (inl TypeError)
  end.

(** The [SearchParameters(...)] call of [parse_parameters] on a dict
    that has the key [keywords]. The only argument that can raise is
    [max_results]. *)
Definition parameters_of_dict (d : gmap string json)
    : option (exn + SearchParameters) :=
  match max_results_entry d with
  | Some (inl e) => Some (inl e)
  | Some (inr max_results) =>
      match d !! "keywords" with
      | Some (JStr keywords) =>
          language ← optional_str_entry d "language";
          min_stars ← int_entry d "min_stars" 0;
          topic ← optional_str_entry d "topic";
          sort_by ← str_entry d "sort_by" "stars";
          include_readme ← bool_entry d "include_readme" true;
          fallback_search ← bool_entry d "fallback_search" true;
          Some (inr {| keywords := keywords; language := language;
                       min_stars := min_stars; topic := topic;
                       sort_by := sort_by; max_results := max_results;
                       include_readme := include_readme;
                       fallback_search := fallback_search |})
      | _ => None
      end
  | None => None
  end.

(** [parse_parameters], applied to what [json.loads(json_str)] gives.
    The result is [None] exactly when the document is a dict whose
    entries do not all have the declared types. *)
Definition parse_parameters (json_str : loads_result)
    : option (exn + SearchParameters) :=
  match json_str with
  | LoadError msg => Some (inl (ValueError ("Invalid JSON: " +:+ msg)))
  | Loaded data =>
      match has_keywords data with
      | inl e => Some (inl e)
      | inr false => Some (inl (ValueError "'keywords' is required"))
      | inr true =>
          match data with
          | JObj d => parameters_of_dict d
          | _ => Some (inl TypeError)
          end
      end
  end.

(** [parsed] with the field [fallback_search] of its parameters, if it
    holds any, set to [v]. *)
Definition set_fallback_search (v : bool) (parsed : exn + SearchParameters)
    : exn + SearchParameters :=
  match parsed with
  | inl e => inl e
  | inr params => inr (with_fallback_search params v)
  end.

(** ** The process *)

(** What a run of the tool leaves behind: the envelope printed on
    standard output or on standard error, and the exit code. *)
Record process_result := {
  stdout : option (gmap string json);
  stderr : option (gmap string json);
  exit_code : Z
}.

(** The three [except] clauses of [main], tried in order. *)
Definition report_error (e : exn) : process_result :=
  let error_type :=
    if is_ValueError e then "validation_error"
    else if is_RuntimeError e then "api_error"
    else "unexpected_error" in
  {| stdout := None; stderr := Some (error_output e error_type);
     exit_code := 1 |}.

(** The request of [search_repositories]: the query, the sort key
    looked up in [sort_mapping] with [stars] as the default, descending
    order, and [min(params.max_results, 10)] results per page. *)
Definition search_request_of (params : SearchParameters) : request :=
  let query := _build_search_query params in
  let sort := default "stars" (sort_mapping !! sort_by params) in
  SearchRequest query sort "desc" (Z.min (max_results params) 10).

Section Tool.

(** The provider: the answer to a request, given the requests that
    came before it. *)
Variable remote : list request → request → response.

(** [base64.b64decode] on a text and [bytes.decode("utf-8")], each
    failing with its exception on input it rejects. *)
Variable b64decode : string → option (list Byte.byte).
Variable decode_utf8 : list Byte.byte → option string.

(** [self.client.get(...)] *)
Definition client_get (req : request) : M (Z * string * loads_result) :=
  λ calls,
    match remote calls req with
    | TransportError msg => (inl (RequestError msg), calls ++ [req])
    | Reply status_code text body =>
        (inr (status_code, text, body), calls ++ [req])
    end.

(** [response.raise_for_status()] *)
Definition raise_for_status (status_code : Z) (text : string) : M unit :=
  if is_success status_code then ret tt
  else raise (HTTPStatusError status_code text).

(** [response.json()] *)
Definition response_json (body : loads_result) : M json :=
  match body with
  | Loaded v => ret v
  | LoadError msg => raise (JSONDecodeError msg)
  end.

(** The body of the [try] block of [_fetch_readme], together with the
    [return None] reached when [content] is false. *)
Definition fetch_readme_try (full_name : json) : M (option string) :=
  response <- client_get (ReadmeRequest full_name) ;;
  let '(status_code, text, body) := response in
  if status_code =? 404 then ret None
  else
    _ <- raise_for_status status_code text ;;
    data <- response_json body ;;
    content <- get_method data "content" (JStr EmptyString) ;;
    if truthy content then
      match content with
      | JStr content =>
          let content := Str.replace Str.newline EmptyString content in
          match b64decode content with
          | None => raise Base64Error
          | Some raw =>
              match decode_utf8 raw with
              | None => raise UnicodeDecodeError
              | Some decoded => ret (Some (truncate_readme decoded))
              end
          end
      | _ => raise AttributeError
      end
    else ret None.

(** [GitHubSearchTool._fetch_readme]: [except Exception: pass], then
    [return None]. *)
Definition _fetch_readme (full_name : json) : M (option string) :=
  catch (fetch_readme_try full_name) (λ _, ret None).

(** The ways README retrieval fails, as the specification lists them:
    a network error, a 404, another status that is not a success, a
    body that is not JSON, JSON of an unexpected shape (not an object,
    or an object whose [content] is not a text), base64 that does not
    decode, bytes that are not UTF-8. *)
Definition unexpected_shape (data : json) : Prop :=
  match data with
  | JObj d =>
      match d !! "content" with
      | None | Some (JStr _) => False
      | Some _ => True
      end
  | _ => True
  end.

Inductive readme_failure : response → Prop :=
| network_error msg :
    readme_failure (TransportError msg)
| not_found text body :
    readme_failure (Reply 404 text body)
| error_status status_code text body :
    is_success status_code = false →
    readme_failure (Reply status_code text body)
| body_not_json status_code text msg :
    readme_failure (Reply status_code text (LoadError msg))
| body_unexpected status_code text data :
    unexpected_shape data →
    readme_failure (Reply status_code text (Loaded data))
| base64_error status_code text d content :
    d !! "content" = Some (JStr content) →
    b64decode (Str.replace Str.newline EmptyString content) = None →
    readme_failure (Reply status_code text (Loaded (JObj d)))
| utf8_error status_code text d content raw :
    d !! "content" = Some (JStr content) →
    b64decode (Str.replace Str.newline EmptyString content) = Some raw →
    decode_utf8 raw = None →
    readme_failure (Reply status_code text (Loaded (JObj d))).

(** The answers of the provider to the README requests for
    [full_names], sent one after the other once [calls] have been
    sent. *)
Fixpoint readme_responses (calls : list request) (full_names : list json)
    : list response :=
  match full_names with
  | [] => []
  | full_name :: rest =>
      remote calls (ReadmeRequest full_name)
        :: readme_responses (calls ++ [ReadmeRequest full_name]) rest
  end.

(** The [Repository(...)] call in the loop of [search_repositories];
    the keyword arguments are evaluated in the order written. *)
Definition make_repository (item : json) : M Repository.t :=
  name <- subscript item "name" ;;
  full_name <- subscript item "full_name" ;;
  description <- get_method item "description" JNull ;;
  url <- subscript item "html_url" ;;
  stars <- subscript item "stargazers_count" ;;
  forks <- subscript item "forks_count" ;;
  language <- get_method item "language" JNull ;;
  topics <- get_method item "topics" (JArr []) ;;
  created_at <- subscript item "created_at" ;;
  updated_at <- subscript item "updated_at" ;;
  pushed_at <- subscript item "pushed_at" ;;
  open_issues <- subscript item "open_issues_count" ;;
  license_cond <- get_method item "license" JNull ;;
  license <-
    (if truthy license_cond then
       license_obj <- get_method item "license" (JObj ∅) ;;
       get_method license_obj "spdx_id" JNull
     else ret JNull) ;;
  ret {| Repository.name := name; Repository.full_name := full_name;
         Repository.description := description; Repository.url := url;
         Repository.stars := stars; Repository.forks := forks;
         Repository.language := language; Repository.topics := topics;
         Repository.created_at := created_at;
         Repository.updated_at := updated_at;
         Repository.pushed_at := pushed_at;
         Repository.open_issues := open_issues;
         Repository.license := license;
         Repository.readme_content := None |}.

(** One turn of the loop: build the record, fetch the README if asked
    to. *)
Definition normalize_item (params : SearchParameters) (item : json)
    : M Repository.t :=
  repo <- make_repository item ;;
  if include_readme params then
    full_name <- subscript item "full_name" ;;
    readme <- _fetch_readme full_name ;;
    ret (Repository.set_readme_content repo readme)
  else ret repo.

(** The loop [for item in ...: ... repositories.append(repo)]. *)
Fixpoint normalize_loop (params : SearchParameters) (items : list json)
    (repositories : list Repository.t) : M (list Repository.t) :=
  match items with
  | [] => ret repositories
  | item :: rest =>
      repo <- normalize_item params item ;;
      normalize_loop params rest (repositories ++ [repo])
  end.

(** The [try] block of [search_repositories] with its two handlers. *)
Definition search_request (params : SearchParameters) : M json :=
  catch
    (response <- client_get (search_request_of params) ;;
     let '(status_code, text, body) := response in
     _ <- raise_for_status status_code text ;;
     response_json body)
    (λ e,
       match e with
       | HTTPStatusError status_code text =>
           raise (RuntimeError ("GitHub API error: " +:+ Str.of_int status_code
                                  +:+ " - " +:+ text))
       | RequestError msg => raise (RuntimeError ("Request failed: " +:+ msg))
       | _ => raise e
       end).

(** [GitHubSearchTool.search_repositories] *)
Definition search_repositories (params : SearchParameters)
    : M (list Repository.t) :=
  data <- search_request params ;;
  items <- get_method data "items" (JArr []) ;;
  items <- iterate items ;;
  normalize_loop params items [].

(** The [try] block of [main] once [parse_parameters] has returned
    or raised: search, then format. *)
Definition main_try (parsed : exn + SearchParameters)
    : M (gmap string json) :=
  match parsed with
  | inl e => raise e
  | inr params =>
      repositories <- search_repositories params ;;
      ret (format_output repositories (Some params))
  end.

(** The envelope of a run and the requests it sent, from the parsed
    parameters. *)
Definition run (parsed : exn + SearchParameters)
    : process_result * list request :=
  match main_try parsed [] with
  | (inr output, calls) =>
      ({| stdout := Some output; stderr := None; exit_code := 0 |}, calls)
  | (inl e, calls) => (report_error e, calls)
  end.

(** [main], from the result of [json.loads] on the parameter text.
    Reading the command line and finding a token are left to the
    caller. *)
Definition main (parameters : loads_result)
    : option (process_result * list request) :=
  run <$> parse_parameters parameters.

End Tool.

(** A computation that sends no request: it leaves the list of calls as
    it found it, and its result does not depend on the list. *)
Definition sends_nothing {A} (m : M A) : Prop :=
  ∀ calls, m calls = ((m []).1, calls).

(** The record built from a provider item, or the exception its
    construction raises; it sends no request. *)
Definition repository_of (item : json) : exn + Repository.t :=
  (make_repository item []).1.

(** [item["full_name"]] of a provider item that has the key. *)
Definition full_name_of (item : json) : json :=
  match item with
  | JObj d => default JNull (d !! "full_name")
  | _ => JNull
  end.

(** A provider item from which the search loop can build its record. *)
Definition well_formed_item (item : json) : bool :=
  match repository_of item with
  | inr _ => true
  | inl _ => false
  end.

(** The envelope a run printed, on either stream. *)
Definition printed (result : process_result) (envelope : gmap string json)
    : Prop :=
  stdout result = Some envelope ∨ stderr result = Some envelope.

(** ** The suggestion engine, heuristic by heuristic *)

Definition generic_suggestions : list string :=
  ["Try using more general or alternative keywords";
   "Check spelling and try common synonyms"].

(** The tests of the five heuristics of [_generate_search_suggestions]. *)
Definition abbreviation_fires (params : SearchParameters) : bool :=
  existsb (λ entry : string * string,
             bool_decide (entry.1 ∈ Str.split (Str.lower (keywords params))))
    abbreviations.

Definition stars_fires (params : SearchParameters) : bool :=
  min_stars params >? 100.

Definition language_fires (params : SearchParameters) : bool :=
  truthy_opt (language params).

Definition fewer_fires (params : SearchParameters) : bool :=
  (2 <? length (Str.split (keywords params)))%nat.

Definition topic_fires (params : SearchParameters) : bool :=
  negb (truthy_opt (topic params))
  && existsb (λ entry : string * string,
                Str.contains entry.1 (Str.lower (keywords params)))
       topic_suggestions.

Definition heuristic_fires (params : SearchParameters) : bool :=
  abbreviation_fires params || stars_fires params || language_fires params
  || fewer_fires params || topic_fires params.

(** The opening words of the five kinds of suggestion. *)
Definition heuristic_openings : list string :=
  ["Try expanding abbreviations: "; "Try lowering min_stars from ";
   "Try searching without the language filter (remove language: ";
   "Try using fewer keywords: "; "Try adding topic filter: topic:"].

Definition is_heuristic_text (s : string) : bool :=
  existsb (λ opening, String.prefix opening s) heuristic_openings.

(** What each heuristic appends, in the order of the function body. *)
Definition abbreviation_part (params : SearchParameters) : list string :=
  abbreviation_loop abbreviations (Str.lower (keywords params)) [].

Definition stars_part (params : SearchParameters) : list string :=
  if min_stars params >? 100
  then ["Try lowering min_stars from " +:+ Str.of_int (min_stars params)
          +:+ " to " +:+ Str.of_int (min_stars params / 2) +:+ " or 50"]
  else [].

Definition language_part (params : SearchParameters) : list string :=
  if truthy_opt (language params)
  then ["Try searching without the language filter (remove language: "
          +:+ Str.dquote +:+ fmt_opt (language params) +:+ Str.dquote
          +:+ ")"]
  else [].

Definition fewer_part (params : SearchParameters) : list string :=
  if (2 <? length (Str.split (keywords params)))%nat
  then ["Try using fewer keywords: " +:+ Str.dquote
          +:+ Str.join Str.space (take 2 (Str.split (keywords params)))
          +:+ Str.dquote]
  else [].

Definition topic_part (params : SearchParameters) : list string :=
  if negb (truthy_opt (topic params))
  then topic_loop topic_suggestions (Str.lower (keywords params)) []
  else [].

Definition heuristic_suggestions (params : SearchParameters) : list string :=
  abbreviation_part params ++ stars_part params ++ language_part params
  ++ fewer_part params ++ topic_part params.

(** Whether a list holds a suggestion that opens with [opening]. *)
Definition has_kind (opening : string) (suggestions : list string) : bool :=
  existsb (String.prefix opening) suggestions.

(** ** Credentials and headers *)

(** What [subprocess.run(["gh", "auth", "token"], ...)] does: it
    completes with a return code and its standard output, it raises
    [TimeoutExpired] or [FileNotFoundError], or it raises another
    exception, which [_get_token] does not catch. *)
Inductive gh_outcome :=
| GhCompleted (returncode : Z) (output : string)
| GhTimeoutExpired
| GhFileNotFound
| GhRaises (name : string).

(** [a or b] on two values of [os.environ.get]. *)
Definition or_opt (a b : option string) : option string :=
  if truthy_opt a then a else b.

(** [GitHubSearchTool._get_token]; [inl name] when the exception [name]
    leaves it. The command is run only when the environment gives no
    token. *)
Definition _get_token (environ : gmap string string) (gh : gh_outcome)
    : string + option string :=
  let token := or_opt (environ !! "GITHUB_TOKEN") (environ !! "GH_TOKEN") in
  if truthy_opt token then inr token
  else
    match gh with
    | GhCompleted returncode output =>
        if returncode =? 0 then inr (Some (Str.strip output))
        else inr None
    | GhTimeoutExpired | GhFileNotFound => inr None
    | GhRaises name => inl name
    end.

(** [self.token = token or self._get_token()] in [__init__]. *)
Definition init_token (token : option string) (environ : gmap string string)
    (gh : gh_outcome) : string + option string :=
  if truthy_opt token then inr token else _get_token environ gh.

(** [GitHubSearchTool._build_headers] *)
Definition _build_headers (token : option string) : gmap string string :=
  let headers : gmap string string :=
    <["Accept" := "application/vnd.github+json"]>
      (<["X-GitHub-Api-Version" := "2022-11-28"]>
         (<["User-Agent" := "GitHub-Search-Agent-Tool/1.0"]> ∅)) in
  if truthy_opt token
  then <["Authorization" := "Bearer " +:+ fmt_opt token]> headers
  else headers.

(** The headers [__init__] gives the client. *)
Definition client_headers (token : option string)
    (environ : gmap string string) (gh : gh_outcome)
    : string + gmap string string :=
  match init_token token environ gh with
  | inl name => inl name
  | inr token => inr (_build_headers token)
  end.

(** The ways to end without a token: the command times out, is not
    installed, fails, or prints nothing but whitespace. *)
Definition gh_gives_nothing (gh : gh_outcome) : bool :=
  match gh with
  | GhCompleted returncode output =>
      negb (returncode =? 0) || Str.all_space output
  | GhTimeoutExpired | GhFileNotFound => true
  | GhRaises _ => false
  end.

(** ** Outcomes of a run *)

(** A computation whose exceptions are all reported as
    [unexpected_error]: none is a [ValueError] or a [RuntimeError]. *)
Definition raises_unexpected_only {A} (m : M A) : Prop :=
  ∀ calls e calls',
    m calls = (inl e, calls') →
    is_ValueError e = false ∧ is_RuntimeError e = false.

Definition is_readme_request (req : request) : bool :=
  match req with
  | ReadmeRequest _ => true
  | SearchRequest _ _ _ _ => false
  end.

(** The items the search loop visits in a decoded body:
    [data.get("items", [])] and its iteration, when neither raises. *)
Definition items_of (data : json) : option (list json) :=
  match (items <- get_method data "items" (JArr []) ;; iterate items) [] with
  | (inr items, _) => Some items
  | (inl _, _) => None
  end.

(** A body from which the loop builds every record. *)
Definition normalizable (data : json) : bool :=
  match items_of data with
  | Some items => forallb well_formed_item items
  | None => false
  end.

(** A search answer that [search_repositories] turns into a
    [RuntimeError]: a transport error, or a status outside 200..299. *)
Definition search_refused (resp : response) : bool :=
  match resp with
  | TransportError _ => true
  | Reply status_code _ _ => negb (is_success status_code)
  end.

(** The keys of a repository in the output, of a failure envelope and
    of a success envelope. *)
Definition repository_keys : gset string :=
  {["name"; "full_name"; "description"; "url"; "stars"; "forks";
    "language"; "topics"; "created_at"; "updated_at"; "pushed_at";
    "open_issues"; "license"; "readme"]}.

Definition failure_keys : gset string := {["success"; "error"; "error_type"]}.

Definition success_keys (count : nat) : gset string :=
  if bool_decide (count = 0%nat)
  then {["success"; "count"; "repositories"; "suggestions"; "message"]}
  else {["success"; "count"; "repositories"]}.

Definition error_types : list string :=
  ["validation_error"; "api_error"; "unexpected_error"].

(** The keys [make_repository] reads with [item[...]]. *)
Definition required_keys : list string :=
  ["name"; "full_name"; "html_url"; "stargazers_count"; "forks_count";
   "created_at"; "updated_at"; "pushed_at"; "open_issues_count"].

(** A [license] entry the license expression accepts: absent, false as
    a Python value, or a dict. *)
Definition license_accepted (d : gmap string json) : bool :=
  match d !! "license" with
  | None => true
  | Some (JObj l) => true
  | Some v => negb (truthy v)
  end.

(** The license of the record built from a dict with that entry. *)
Definition license_of (d : gmap string json) : json :=
  match d !! "license" with
  | Some (JObj l) =>
      if truthy (JObj l) then default JNull (l !! "spdx_id") else JNull
  | _ => JNull
  end.

(** ** A sample provider *)

Module Demo.

(** Standard base64 on canonical input: groups of four characters of
    the alphabet, padded with [=] in the last group only. Python's
    decoder accepts this input and returns the same bytes. *)
Definition b64_digit (c : ascii) : option N :=
  let n := N_of_ascii c in
  (if (65 <=? n) && (n <=? 90) then Some (n - 65)
   else if (97 <=? n) && (n <=? 122) then Some (n - 71)
   else if (48 <=? n) && (n <=? 57) then Some (n + 4)
   else if n =? 43 then Some 62
   else if n =? 47 then Some 63
   else None)%N.

Definition octet (n : N) : option Byte.byte := Byte.of_N (n mod 256)%N.

Fixpoint b64decode (s : string) : option (list Byte.byte) :=
  match s with
  | EmptyString => Some []
  | String a (String b (String c (String d rest))) =>
      va ← b64_digit a;
      vb ← b64_digit b;
      if bool_decide (d = "="%char) then
        if negb (Str.is_empty rest) then None
        else if bool_decide (c = "="%char) then
          x ← octet ((va * 64 + vb) / 16)%N;
          Some [x]
        else
          vc ← b64_digit c;
          x ← octet (((va * 64 + vb) * 64 + vc) / 1024)%N;
          y ← octet (((va * 64 + vb) * 64 + vc) / 4)%N;
          Some [x; y]
      else
        vc ← b64_digit c;
        vd ← b64_digit d;
        x ← octet ((((va * 64 + vb) * 64 + vc) * 64 + vd) / 65536)%N;
        y ← octet ((((va * 64 + vb) * 64 + vc) * 64 + vd) / 256)%N;
        z ← octet ((((va * 64 + vb) * 64 + vc) * 64 + vd))%N;
        tail ← b64decode rest;
        Some (x :: y :: z :: tail)
  | _ => None
  end.

(** UTF-8 on bytes below 128, where it is the identity; other input
    is rejected. *)
Fixpoint decode_ascii (raw : list Byte.byte) : option string :=
  match raw with
  | [] => Some EmptyString
  | x :: rest =>
      if (Byte.to_N x <? 128)%N
      then String (ascii_of_byte x) <$> decode_ascii rest
      else None
  end.

(** A provider record with every field the search loop reads. *)
Definition item (name full_name : string) : json :=
  JObj (<["name" := JStr name]>
       (<["full_name" := JStr full_name]>
       (<["description" := JNull]>
       (<["html_url" := JStr ("https://github.com/" +:+ full_name)]>
       (<["stargazers_count" := JInt 1200]>
       (<["forks_count" := JInt 34]>
       (<["language" := JStr "Python"]>
       (<["topics" := JArr [JStr "cli"]]>
       (<["created_at" := JStr "2020-01-01T00:00:00Z"]>
       (<["updated_at" := JStr "2024-01-01T00:00:00Z"]>
       (<["pushed_at" := JStr "2024-01-02T00:00:00Z"]>
       (<["open_issues_count" := JInt 5]>
       (<["license" := JObj (<["spdx_id" := JStr "MIT"]> ∅)]>
          ∅))))))))))))).

Fixpoint repeat_text (n : nat) (s : string) : string :=
  match n with
  | O => EmptyString
  | S k => s +:+ repeat_text k s
  end.

(** The base64 text of 6000 letters A, broken into two lines. *)
Definition long_readme_b64 : string :=
  repeat_text 1000 "QUFB" +:+ Str.newline +:+ repeat_text 1000 "QUFB"
    +:+ Str.newline.

Definition hits : list json :=
  [item "bare" "octo/bare"; item "long" "octo/long"; item "odd" "octo/odd"].

Definition hits_body : gmap string json := <["items" := JArr hits]> ∅.

Definition long_readme_body : gmap string json :=
  <["content" := JStr long_readme_b64]> ∅.

(** The 6000 bytes and the 6000 characters that text decodes to. *)
Definition long_readme_raw : list Byte.byte := repeat Byte.x41 (6 * 1000).

Definition long_readme : string := repeat_text (6 * 1000) "A".

(** Three hits; the first has no README, the second a README of 6000
    characters, the third a README whose base64 text lacks its padding. Any
    keyword containing [nothing] finds no repository. *)
Definition provider (calls : list request) (req : request) : response :=
  match req with
  | SearchRequest q _ _ _ =>
      if Str.contains "nothing" q
      then Reply 200 "{}" (Loaded (JObj (<["items" := JArr []]> ∅)))
      else Reply 200 "{}" (Loaded (JObj hits_body))
  | ReadmeRequest (JStr full_name) =>
      if bool_decide (full_name = "octo/bare")
      then Reply 404 "Not Found" (LoadError "Expecting value")
      else if bool_decide (full_name = "octo/long")
      then Reply 200 "{}" (Loaded (JObj long_readme_body))
      else Reply 200 "{}" (Loaded (JObj (<["content" := JStr "QUF"]> ∅)))
  | ReadmeRequest _ => TransportError "invalid URL"
  end.

Definition main := main provider b64decode decode_ascii.
Definition run := run provider b64decode decode_ascii.
Definition fetch_readme := _fetch_readme provider b64decode decode_ascii.

(** The [readme] entries of the repositories of an envelope. *)
Definition readme_entries (envelope : gmap string json)
    : list (option json) :=
  match envelope !! "repositories" with
  | Some (JArr results) =>
      (λ v, match v with JObj d => d !! "readme" | _ => None end) <$> results
  | _ => []
  end.

(** Documents of the command line. *)
Definition capped_document : gmap string json :=
  <["keywords" := JStr "x"]> (<["max_results" := JInt 25]> ∅).

Definition zero_document : gmap string json :=
  <["keywords" := JStr "x"]> (<["max_results" := JInt 0]> ∅).

Definition no_keywords_document : gmap string json :=
  <["language" := JStr "go"]> (<["min_stars" := JInt 10]> ∅).

End Demo.

(** ** More samples *)

Module Samples.

(** Three hits, two of them the same repository, none with a README
    that decodes. *)
Definition hits : list json :=
  [Demo.item "bare" "octo/bare"; Demo.item "odd" "octo/odd";
   Demo.item "bare" "octo/bare"].

Definition hits_body : gmap string json := <["items" := JArr hits]> ∅.

Definition provider (calls : list request) (req : request) : response :=
  match req with
  | SearchRequest _ _ _ _ => Reply 200 "{}" (Loaded (JObj hits_body))
  | ReadmeRequest _ => Demo.provider calls req
  end.

(** A provider that refuses the search, and one that answers it with a
    page that is not JSON. *)
Definition refusing_provider (calls : list request) (req : request)
    : response :=
  Reply 403 "API rate limit exceeded" (LoadError "Expecting value").

Definition html_provider (calls : list request) (req : request) : response :=
  Reply 200 "<html>" (LoadError "Expecting value").

(** A provider whose README resources have an empty [content]. *)
Definition empty_readme_body : gmap string json :=
  <["content" := JStr EmptyString]> (<["encoding" := JStr "base64"]> ∅).

Definition empty_readme_provider (calls : list request) (req : request)
    : response :=
  Reply 200 "{}" (Loaded (JObj empty_readme_body)).

Definition run := run provider Demo.b64decode Demo.decode_ascii.

(** Parameters with README retrieval off. *)
Definition quick_parameters : SearchParameters :=
  {| keywords := "parser"; language := None; min_stars := 0; topic := None;
     sort_by := "newest"; max_results := 50; include_readme := false;
     fallback_search := true |}.

(** An environment with both variables, and an empty one. *)
Definition both_tokens : gmap string string :=
  <["GITHUB_TOKEN" := "ghp_first"]> (<["GH_TOKEN" := "ghp_second"]> ∅).

Definition empty_github_token : gmap string string :=
  <["GITHUB_TOKEN" := EmptyString]> (<["GH_TOKEN" := "ghp_second"]> ∅).

End Samples.


(** A run that sent no request, printed nothing on standard output,
    exited with code 1 and reported a failure of type [error_type] on
    standard error. *)
Definition reports_failure (outcome : option (process_result * list request))
    (error_type : string) : Prop :=
  ∃ envelope,
    outcome
    = Some ({| stdout := None; stderr := Some envelope; exit_code := 1 |}, [])
    ∧ envelope !! "success" = Some (JBool false)
    ∧ envelope !! "error_type" = Some (JStr error_type).

(** * Properties *)

(** ** The text primitives on small inputs *)

Example split_runs :
  Str.split "  ml   tools for  AI " = ["ml"; "tools"; "for"; "AI"].
Proof. reflexivity. Qed.

Example split_blank : Str.split "   " = [].
Proof. reflexivity. Qed.

Example lower_ascii : Str.lower "ML Tools-2" = "ml tools-2".
Proof. reflexivity. Qed.

(** The code points below 256 that [str.isspace] accepts, and those
    that [str.lower] changes: each by 32. *)
Example isspace_table :
  filter (λ n, Str.isspace (ascii_of_nat n) = true) (seq 0 256)
  = [9; 10; 11; 12; 13; 28; 29; 30; 31; 32; 133; 160]%nat.
Proof. vm_compute. reflexivity. Qed.

Example lower_table :
  filter (λ n, Str.lower_char (ascii_of_nat n) ≠ ascii_of_nat n) (seq 0 256)
  = (seq 65 26 ++ seq 192 23 ++ seq 216 7)%list
  ∧ forallb (λ n, bool_decide (Str.lower_char (ascii_of_nat n)
                                 = ascii_of_nat (n + 32)))
      (seq 65 26 ++ seq 192 23 ++ seq 216 7) = true.
Proof. split; vm_compute; reflexivity. Qed.

Example replace_empty_old : Str.replace EmptyString "-" "abc" = "-a-b-c-".
Proof. reflexivity. Qed.

Example replace_all : Str.replace "ab" "x" "abcabab" = "xcxx".
Proof. reflexivity. Qed.

Example replace_no_overlap : Str.replace "aa" "b" "aaa" = "ba".
Proof. reflexivity. Qed.

Example contains_inside : Str.contains "api" "rapid" = true.
Proof. reflexivity. Qed.

Example join_three : Str.join " " ["a"; "b"; "c"] = "a b c".
Proof. reflexivity. Qed.

Example of_int_negative : Str.of_int (-250) = "-250".
Proof. reflexivity. Qed.

Example floor_division : 501 / 2 = 250.
Proof. reflexivity. Qed.

(** ** Query builder *)

(** C4. For every parameter value the query is the keywords followed by
    the qualifiers of the filters that are set, in the order language,
    stars, topic, separated by single spaces; the parameters keywords x,
    language go, min_stars 50, topic cli give exactly
    [x language:go stars:>=50 topic:cli]. *)
Theorem build_query_order :
  (∀ params, _build_search_query params = build_query_spec params)
  ∧ _build_search_query
      {| keywords := "x"; language := Some "go"; min_stars := 50;
         topic := Some "cli"; sort_by := "stars"; max_results := 5;
         include_readme := true; fallback_search := true |}
    = "x language:go stars:>=50 topic:cli".
Proof.
  split; [| reflexivity].
  intros [kw lang stars top srt mx rd fb].
  unfold _build_search_query, build_query_spec, stars_qualifier; simpl.
  assert (Hs : (stars >? 0) = bool_decide (0 < stars)).
  { destruct (Z.gtb_spec stars 0); case_bool_decide; lia || done. }
  rewrite Hs.
  destruct lang as [[| c l] |], top as [[| c' t] |];
    destruct (bool_decide (0 < stars)); reflexivity.
Qed.

(** C10. In the query an empty language behaves as an absent one, and an
    empty topic as an absent one: no qualifier is written for it. *)
Theorem build_query_empty_filter :
  ∀ params,
    _build_search_query (with_language params (Some EmptyString))
    = _build_search_query (with_language params None)
    ∧ _build_search_query (with_topic params (Some EmptyString))
      = _build_search_query (with_topic params None).
Proof.
  intros [kw lang stars top srt mx rd fb]; split; reflexivity.
Qed.

(** ** Suggestion engine *)

(** C6. For keywords [ml tools], min_stars 500 and language python the
    engine returns three suggestions: the expansion of ml to machine
    learning, the halving of the stars to 250 or 50, and the removal of
    the language python; none is empty, and they are what an empty
    result carries in its envelope. *)
Theorem suggestions_ml_tools :
  let params :=
    {| keywords := "ml tools"; language := Some "python"; min_stars := 500;
       topic := None; sort_by := "stars"; max_results := 5;
       include_readme := true; fallback_search := true |} in
  let expected :=
    [ "Try expanding abbreviations: " +:+ Str.dquote
        +:+ "machine learning tools" +:+ Str.dquote;
      "Try lowering min_stars from 500 to 250 or 50";
      "Try searching without the language filter (remove language: "
        +:+ Str.dquote +:+ "python" +:+ Str.dquote +:+ ")" ] in
  _generate_search_suggestions params = expected
  ∧ length (_generate_search_suggestions params) = 3%nat
  ∧ Forall (λ s, s ≠ EmptyString) (_generate_search_suggestions params)
  ∧ format_output [] (Some params) !! "suggestions"
    = Some (JArr (JStr <$> expected)).
Proof.
  cbv zeta. split; [vm_compute; reflexivity |].
  split; [vm_compute; reflexivity |].
  split; [| vm_compute; reflexivity].
  assert (H : _generate_search_suggestions
    {| keywords := "ml tools"; language := Some "python"; min_stars := 500;
       topic := None; sort_by := "stars"; max_results := 5;
       include_readme := true; fallback_search := true |}
    = [ "Try expanding abbreviations: " +:+ Str.dquote
        +:+ "machine learning tools" +:+ Str.dquote;
      "Try lowering min_stars from 500 to 250 or 50";
      "Try searching without the language filter (remove language: "
        +:+ Str.dquote +:+ "python" +:+ Str.dquote +:+ ")" ])
    by (vm_compute; reflexivity).
  rewrite H. repeat constructor; discriminate.
Qed.

(** C7, at the keywords [ai training]. The token ai is matched, and the
    replacement then rewrites every occurrence of the two letters in the
    lowercased text, also the one inside the token training: the
    suggestion does not name the keywords with only the matched token
    expanded. *)
Theorem abbreviation_rewrites_inside_tokens :
  _generate_search_suggestions (default_parameters "ai training")
  = [ "Try expanding abbreviations: " +:+ Str.dquote
        +:+ "artificial intelligence trartificial intelligencening"
        +:+ Str.dquote ]
  ∧ _generate_search_suggestions (default_parameters "ai training")
    ≠ [ "Try expanding abbreviations: " +:+ Str.dquote
          +:+ "artificial intelligence training" +:+ Str.dquote ].
Proof.
  split; [vm_compute; reflexivity | vm_compute; discriminate].
Qed.

(** The loop over the abbreviations adds nothing when no key is a
    token. *)
Lemma abbreviation_loop_no_match items kw acc :
  (∀ abbr expansion, (abbr, expansion) ∈ items → abbr ∉ Str.split kw) →
  abbreviation_loop items kw acc = acc.
Proof.
  induction items as [| [a e] items IH]; intros Hno; [done |].
  simpl. rewrite bool_decide_eq_false_2.
  - apply IH. intros abbr expansion Hin. apply (Hno abbr expansion). by right.
  - apply (Hno a e). by left.
Qed.

(** X1. Otherwise it adds one suggestion, for the first key in the
    order of declaration that is a token: the keys before it are
    skipped, and the suggestion names [keywords.replace(abbr, expansion)]. *)
Lemma abbreviation_loop_first_match before abbr expansion after kw acc :
  (∀ a e, (a, e) ∈ before → a ∉ Str.split kw) →
  abbr ∈ Str.split kw →
  abbreviation_loop (before ++ (abbr, expansion) :: after) kw acc
  = acc ++ ["Try expanding abbreviations: " +:+ Str.dquote
              +:+ Str.replace abbr expansion kw +:+ Str.dquote].
Proof.
  induction before as [| [a e] before IH]; intros Hno Hin; simpl.
  - by rewrite bool_decide_eq_true_2.
  - rewrite bool_decide_eq_false_2 by (apply (Hno a e); by left).
    apply IH; [| done]. intros a' e' H'. apply (Hno a' e'). by right.
Qed.

(** ** README retrieval *)

Lemma length_slice_to n s :
  (n ≤ String.length s)%nat → String.length (Str.slice_to n s) = n.
Proof.
  unfold Str.slice_to. revert s.
  induction n as [| n IH]; intros [| c s] Hle; simpl in *; try lia; try done.
  rewrite IH; lia.
Qed.

Lemma truncate_readme_long decoded :
  (max_length < String.length decoded)%nat →
  truncate_readme decoded = Str.slice_to max_length decoded +:+ truncation_marker.
Proof.
  intros H. unfold truncate_readme.
  destruct (Nat.ltb_spec max_length (String.length decoded)); [done | lia].
Qed.

Lemma truncate_readme_short decoded :
  (String.length decoded ≤ max_length)%nat → truncate_readme decoded = decoded.
Proof.
  intros H. unfold truncate_readme.
  destruct (Nat.ltb_spec max_length (String.length decoded)); [lia | done].
Qed.

Section Properties.

Context (remote : list request → request → response).
Context (b64decode : string → option (list Byte.byte)).
Context (decode_utf8 : list Byte.byte → option string).

Local Abbreviation fetch_readme := (_fetch_readme remote b64decode decode_utf8).
Local Abbreviation failure := (readme_failure b64decode decode_utf8).

(** A README request is sent and answered whatever happens: the
    function returns, and never raises. *)
Lemma fetch_readme_returns full_name calls :
  ∃ readme,
    fetch_readme full_name calls
    = (inr readme, calls ++ [ReadmeRequest full_name]).
Proof.
  unfold _fetch_readme, catch, fetch_readme_try, bind, client_get.
  destruct (remote calls (ReadmeRequest full_name)) as [msg | sc text body];
    simpl; [by eexists |].
  destruct (sc =? 404); simpl; [by eexists |].
  unfold raise_for_status. destruct (is_success sc); simpl; [| by eexists].
  destruct body as [msg | data]; simpl; [by eexists |].
  destruct data; simpl; try by eexists.
  destruct (truthy _); simpl; [| by eexists].
  destruct (default _ _); simpl; try by eexists.
  destruct (b64decode _); simpl; [| by eexists].
  destruct (decode_utf8 _); simpl; by eexists.
Qed.

(** X3. [_fetch_readme] returns on every answer of the provider, after
    exactly one request: no exception leaves it. *)
Theorem fetch_readme_never_raises full_name calls :
  ∃ readme,
    _fetch_readme remote b64decode decode_utf8 full_name calls
    = (inr readme, calls ++ [ReadmeRequest full_name]).
Proof. apply fetch_readme_returns. Qed.

(** Every failure of the list gives [None]. *)
Lemma fetch_readme_failure full_name calls :
  failure (remote calls (ReadmeRequest full_name)) →
  fetch_readme full_name calls = (inr None, calls ++ [ReadmeRequest full_name]).
Proof.
  unfold _fetch_readme, catch, fetch_readme_try, bind, client_get, raise, ret.
  intros Hf. destruct Hf as
    [msg | text body | sc text body Hsc | sc text msg | sc text data Hshape
     | sc text d content Hc Hb | sc text d content raw Hc Hb Hu]; simpl.
  - done.
  - done.
  - destruct (sc =? 404); simpl; [done |].
    unfold raise_for_status. by rewrite Hsc.
  - destruct (sc =? 404); simpl; [done |].
    unfold raise_for_status. by destruct (is_success sc).
  - destruct (sc =? 404); simpl; [done |].
    unfold raise_for_status. destruct (is_success sc); simpl; [| done].
    destruct data as [| | | | | d]; simpl; try done.
    simpl in Hshape. destruct (d !! "content") as [v |]; simpl; [| done].
    destruct v as [| b | z | | l | d']; simpl; try done.
    * by destruct b.
    * by destruct (negb _).
    * by destruct (negb _).
    * by destruct (negb _).
  - destruct (sc =? 404); simpl; [done |].
    unfold raise_for_status. destruct (is_success sc); simpl; [| done].
    rewrite Hc; simpl. destruct (negb _); simpl; [| done]. by rewrite Hb.
  - destruct (sc =? 404); simpl; [done |].
    unfold raise_for_status. destruct (is_success sc); simpl; [| done].
    rewrite Hc; simpl. destruct (negb _); simpl; [| done].
    by rewrite Hb, Hu.
Qed.

(** C5. When the provider answers a README request with a success
    status and a JSON object whose [content] decodes to a text, the
    stored README is the text itself if it has at most 5000
    characters, and otherwise its first 5000 characters followed by
    the marker. *)
Theorem readme_truncation full_name calls status_code text d content raw decoded :
  remote calls (ReadmeRequest full_name)
  = Reply status_code text (Loaded (JObj d)) →
  is_success status_code = true →
  d !! "content" = Some (JStr content) →
  content ≠ EmptyString →
  b64decode (Str.replace Str.newline EmptyString content) = Some raw →
  decode_utf8 raw = Some decoded →
  ∃ stored,
    fetch_readme full_name calls
    = (inr (Some stored), calls ++ [ReadmeRequest full_name])
    ∧ ((5000 < String.length decoded)%nat →
       stored = Str.slice_to 5000 decoded +:+ Str.newline +:+ Str.newline
                  +:+ "[README truncated...]"
       ∧ String.length (Str.slice_to 5000 decoded) = 5000%nat)
    ∧ ((String.length decoded ≤ 5000)%nat → stored = decoded).
Proof.
  intros Hr Hs Hc Hne Hb Hu. exists (truncate_readme decoded).
  split; [| split].
  - unfold _fetch_readme, catch, fetch_readme_try, bind, client_get.
    rewrite Hr; simpl.
    assert (H404 : (status_code =? 404) = false).
    { unfold is_success in Hs. apply andb_true_iff in Hs as [_ H2]. lia. }
    rewrite H404; simpl. unfold raise_for_status. rewrite Hs; simpl.
    rewrite Hc; simpl. destruct content; [done |]. simpl.
    by rewrite Hb, Hu.
  - intros Hlong. split.
    + by apply truncate_readme_long.
    + apply length_slice_to. lia.
  - apply truncate_readme_short.
Qed.


(** ** The search loop *)

Lemma sends_nothing_ret {A} (a : A) : sends_nothing (ret a).
Proof. done. Qed.

Lemma sends_nothing_raise {A} e : sends_nothing (@raise A e).
Proof. done. Qed.

Lemma sends_nothing_bind {A B} (m : M A) (k : A → M B) :
  sends_nothing m → (∀ a, sends_nothing (k a)) → sends_nothing (bind m k).
Proof.
  intros Hm Hk calls. unfold bind.
  destruct (m []) as [r c0] eqn:E0.
  pose proof (Hm []) as H0. rewrite E0 in H0. simpl in H0.
  injection H0 as ->. rewrite (Hm calls), E0. simpl.
  destruct r as [e | a]; [done | apply Hk].
Qed.

Lemma sends_nothing_subscript v key : sends_nothing (subscript v key).
Proof. destruct v; try done. simpl. by destruct (_ !! _). Qed.

Lemma sends_nothing_get_method v key dflt :
  sends_nothing (get_method v key dflt).
Proof. by destruct v. Qed.

Lemma make_repository_sends_nothing item : sends_nothing (make_repository item).
Proof.
  unfold make_repository.
  repeat (apply sends_nothing_bind;
          [ apply sends_nothing_subscript || apply sends_nothing_get_method
          | intros ? ]).
  apply sends_nothing_bind; [| intros; apply sends_nothing_ret].
  destruct (truthy _); [| apply sends_nothing_ret].
  apply sends_nothing_bind; intros; apply sends_nothing_get_method.
Qed.

Lemma make_repository_calls item calls :
  make_repository item calls = (repository_of item, calls).
Proof. apply make_repository_sends_nothing. Qed.

(** A record that was built has the item's [full_name], and no README
    yet. *)
Lemma repository_of_inr item repo :
  repository_of item = inr repo →
  (∀ calls, subscript item "full_name" calls
            = (inr (Repository.full_name repo), calls))
  ∧ full_name_of item = Repository.full_name repo
  ∧ Repository.set_readme_content repo None = repo.
Proof.
  unfold repository_of, make_repository, bind, subscript, get_method, ret, raise.
  destruct item as [| | | | | d]; try done. simpl.
  destruct (d !! "name"); [| done].
  destruct (d !! "full_name"); [| done]. simpl.
  intros H. repeat (case_match; simplify_eq/=); done.
Qed.

Local Abbreviation loop_item :=
  (normalize_item remote b64decode decode_utf8).
Local Abbreviation loop := (normalize_loop remote b64decode decode_utf8).
Local Abbreviation search_try := (search_request remote).
Local Abbreviation search :=
  (search_repositories remote b64decode decode_utf8).
Local Abbreviation tool_run := (run remote b64decode decode_utf8).
Local Abbreviation tool_main := (main remote b64decode decode_utf8).

(** One turn of the loop with README retrieval on: the record is
    built, one README request is sent, and a failure of that request
    leaves the README absent. *)
Lemma normalize_item_readme params item calls :
  include_readme params = true →
  well_formed_item item = true →
  ∃ repo,
    loop_item params item calls
    = (inr repo, calls ++ [ReadmeRequest (full_name_of item)])
    ∧ repository_of item = inr (Repository.set_readme_content repo None)
    ∧ (failure (remote calls (ReadmeRequest (full_name_of item))) →
       Repository.readme_content repo = None).
Proof.
  intros Hinc Hwf. unfold well_formed_item in Hwf.
  destruct (repository_of item) as [e | repo0] eqn:Hrepo; [done |].
  destruct (repository_of_inr _ _ Hrepo) as (Hsub & Hfn & Hnone).
  unfold normalize_item, bind.
  rewrite make_repository_calls, Hrepo, Hinc, Hsub, Hfn.
  destruct (fetch_readme_returns (Repository.full_name repo0) calls)
    as [readme Hfetch].
  rewrite Hfetch. eexists. split; [done |]. split.
  - f_equal. rewrite <- Hnone at 1. by destruct repo0.
  - intros Hf. rewrite (fetch_readme_failure _ _ Hf) in Hfetch.
    by simplify_eq.
Qed.

Lemma normalize_loop_readme params items :
  include_readme params = true →
  forallb well_formed_item items = true →
  ∀ acc calls,
    ∃ repos,
      loop params items acc calls
      = (inr (acc ++ repos),
         calls ++ (ReadmeRequest <$> (full_name_of <$> items)))
      ∧ Forall2 (λ item repo,
           repository_of item
           = inr (Repository.set_readme_content repo None)) items repos
      ∧ Forall2 (λ resp repo,
           failure resp → Repository.readme_content repo = None)
          (readme_responses remote calls (full_name_of <$> items)) repos.
Proof.
  intros Hinc. induction items as [| item items IH]; intros Hwf acc calls.
  - exists []. simpl. unfold ret. by rewrite !app_nil_r.
  - simpl in Hwf. apply andb_true_iff in Hwf as [Hitem Hrest].
    destruct (normalize_item_readme params item calls Hinc Hitem)
      as (repo & Hrun & Hrec & Hfail).
    destruct (IH Hrest (acc ++ [repo])
                (calls ++ [ReadmeRequest (full_name_of item)]))
      as (repos & Hloop & Hrecs & Hfails).
    exists (repo :: repos). simpl. unfold bind. rewrite Hrun, Hloop.
    split; [| split].
    + by rewrite <- !app_assoc.
    + by constructor.
    + by constructor.
Qed.

(** A search that the provider answers with a success status and a
    JSON body returns that body after one request. *)
Lemma search_request_success params calls status_code text data :
  remote calls (search_request_of params)
  = Reply status_code text (Loaded data) →
  is_success status_code = true →
  search_try params calls = (inr data, calls ++ [search_request_of params]).
Proof.
  intros Hr Hs.
  unfold search_request, catch, bind, client_get, raise_for_status.
  by rewrite Hr, Hs.
Qed.

(** Whatever the provider answers, the search sends exactly its one
    request. *)
Lemma search_request_calls params calls :
  (search_try params calls).2 = calls ++ [search_request_of params].
Proof.
  unfold search_request, catch, bind, client_get, raise_for_status.
  destruct (remote calls _) as [msg | sc text body]; [done |].
  destruct (is_success sc); [| done]. by destruct body.
Qed.

(** ** The envelope *)

Lemma format_output_success repositories params :
  format_output repositories params !! "success" = Some (JBool true).
Proof.
  unfold format_output.
  destruct (_ =? _)%nat, params; by simplify_map_eq.
Qed.

Lemma format_output_count repositories params :
  format_output repositories params !! "count"
  = Some (JInt (Z.of_nat (length repositories))).
Proof.
  unfold format_output. rewrite length_fmap.
  destruct (_ =? _)%nat, params; by simplify_map_eq.
Qed.

Lemma format_output_repositories repositories params :
  format_output repositories params !! "repositories"
  = Some (JArr (repository_dict <$> repositories)).
Proof.
  unfold format_output.
  destruct (_ =? _)%nat, params; by simplify_map_eq.
Qed.

Lemma format_output_suggestions repositories params :
  format_output repositories (Some params) !! "suggestions"
  = if bool_decide (repositories = [])
    then Some (JArr (JStr <$> _generate_search_suggestions params))
    else None.
Proof.
  unfold format_output. by destruct repositories; simplify_map_eq.
Qed.

Lemma error_output_lookup e error_type :
  error_output e error_type !! "success" = Some (JBool false)
  ∧ error_output e error_type !! "error_type" = Some (JStr error_type)
  ∧ error_output e error_type !! "count" = None
  ∧ error_output e error_type !! "suggestions" = None.
Proof. unfold error_output. by simplify_map_eq. Qed.

(** C1. With README retrieval on, a search the provider answers with
    a success status and well-formed items ends in a success envelope
    that holds one record for each item, in order; each record is the
    one built from its item but for the README, and the README of a
    record is absent whenever the provider's answer to its README
    request is a failure of any of the listed kinds. No such failure
    is raised, and none changes the exit code. *)
Theorem readme_failure_absent params status_code text d items :
  include_readme params = true →
  remote [] (search_request_of params)
  = Reply status_code text (Loaded (JObj d)) →
  is_success status_code = true →
  default (JArr []) (d !! "items") = JArr items →
  forallb well_formed_item items = true →
  ∃ repositories calls,
    tool_run (inr params)
    = ({| stdout := Some (format_output repositories (Some params));
          stderr := None; exit_code := 0 |}, calls)
    ∧ format_output repositories (Some params) !! "success"
      = Some (JBool true)
    ∧ format_output repositories (Some params) !! "count"
      = Some (JInt (Z.of_nat (length items)))
    ∧ format_output repositories (Some params) !! "repositories"
      = Some (JArr (repository_dict <$> repositories))
    ∧ length repositories = length items
    ∧ ∀ i item repo,
        items !! i = Some item →
        repositories !! i = Some repo →
        repository_of item = inr (Repository.set_readme_content repo None)
        ∧ ∀ resp,
            readme_responses remote [search_request_of params]
              (full_name_of <$> items) !! i = Some resp →
            failure resp →
            Repository.readme_content repo = None.
Proof.
  intros Hinc Hr Hs Hitems Hwf.
  destruct (normalize_loop_readme params items Hinc Hwf []
              [search_request_of params])
    as (repos & Hloop & Hrecs & Hfails).
  exists repos. eexists.
  assert (Hlen : length repos = length items)
    by (symmetry; eapply Forall2_length; done).
  split; [| split; [| split; [| split; [| split]]]].
  - unfold run, main_try, search_repositories, bind.
    rewrite (search_request_success _ _ _ _ _ Hr Hs). simpl.
    rewrite Hitems. simpl. by rewrite Hloop.
  - apply format_output_success.
  - by rewrite format_output_count, Hlen.
  - apply format_output_repositories.
  - done.
  - intros i item repo Hi Hrepo. split.
    + eapply (Forall2_lookup_lr _ _ _ _ _ _ Hrecs); done.
    + intros resp Hresp Hf.
      eapply (Forall2_lookup_lr _ _ _ _ _ _ Hfails); done.
Qed.


(** ** Parameter parsing and the process *)

(** The object case of the missing key: a document that is a JSON
    object without the key [keywords]
    ends the run with exit code 1 and, on standard error, a failure
    envelope of type [validation_error]; nothing is printed on
    standard output and no request is sent. *)
Theorem missing_keywords_validation_error (d : gmap string json) :
  d !! "keywords" = None →
  ∃ envelope,
    tool_main (Loaded (JObj d))
    = Some ({| stdout := None; stderr := Some envelope; exit_code := 1 |},
            [])
    ∧ envelope !! "success" = Some (JBool false)
    ∧ envelope !! "error_type" = Some (JStr "validation_error")
    ∧ envelope !! "error" = Some (JStr "'keywords' is required").
Proof.
  intros Hd. eexists. unfold main, parse_parameters, has_keywords.
  rewrite Hd. rewrite bool_decide_eq_false_2 by (by intros [? ?]).
  simpl. split; [reflexivity |]. unfold error_output. by simplify_map_eq.
Qed.

(** A run whose parameters did not parse sends no request and exits
    with code 1, whatever the document was. *)
Lemma run_parse_error e :
  tool_run (inl e) = (report_error e, []).
Proof. done. Qed.

(** The parameters read from an object: which entry gives which
    field. *)
Lemma parse_parameters_fields (d : gmap string json) params :
  parse_parameters (Loaded (JObj d)) = Some (inr params) →
  d !! "keywords" = Some (JStr (keywords params))
  ∧ max_results_entry d = Some (inr (max_results params))
  ∧ optional_str_entry d "language" = Some (language params)
  ∧ int_entry d "min_stars" 0 = Some (min_stars params)
  ∧ optional_str_entry d "topic" = Some (topic params)
  ∧ str_entry d "sort_by" "stars" = Some (sort_by params)
  ∧ bool_entry d "include_readme" true = Some (include_readme params)
  ∧ bool_entry d "fallback_search" true = Some (fallback_search params).
Proof.
  unfold parse_parameters, has_keywords, parameters_of_dict.
  case_bool_decide; [| done].
  destruct (max_results_entry d) as [[e | mx] |]; [done | | done].
  destruct (d !! "keywords") as [[| | | kw | |] |]; try done.
  intros Hp. simplify_option_eq. done.
Qed.

(** C3, as the code has it. Parsing caps [max_results] at 10 and has
    no lower bound: an absent entry gives 5, an integer entry [z]
    gives [min z 10], so 25 gives 10 and 0 stays 0; the page size the
    search asks for is [min max_results 10] again. *)
Theorem max_results_capped (d : gmap string json) params :
  parse_parameters (Loaded (JObj d)) = Some (inr params) →
  (d !! "max_results" = None → max_results params = 5)
  ∧ (∀ z, d !! "max_results" = Some (JInt z) →
          max_results params = Z.min z 10)
  ∧ (d !! "max_results" = Some (JInt 25) → max_results params = 10)
  ∧ (d !! "max_results" = Some (JInt 0) → max_results params = 0)
  ∧ max_results params ≤ 10
  ∧ ∀ calls,
      (search_try params calls).2
      = calls ++ [SearchRequest (_build_search_query params)
                    (default "stars" (sort_mapping !! sort_by params))
                    "desc" (Z.min (max_results params) 10)].
Proof.
  intros Hparse.
  destruct (parse_parameters_fields _ _ Hparse) as (_ & Hmax & _).
  unfold max_results_entry in Hmax.
  assert (Hz : ∀ z, d !! "max_results" = Some (JInt z) →
                    max_results params = Z.min z 10).
  { intros z Hd. rewrite Hd in Hmax. by simplify_eq. }
  split; [| split; [| split; [| split; [| split]]]].
  - intros Hd. rewrite Hd in Hmax. by simplify_eq.
  - done.
  - intros Hd. by rewrite (Hz _ Hd).
  - intros Hd. by rewrite (Hz _ Hd).
  - destruct (d !! "max_results") as [[| | z | | |] |]; simplify_eq; lia.
  - apply search_request_calls.
Qed.

(** ** The envelope of a run *)

Lemma run_envelope parsed envelope :
  printed (tool_run parsed).1 envelope →
  (∃ repositories params,
      envelope = format_output repositories (Some params))
  ∨ (∃ e error_type, envelope = error_output e error_type).
Proof.
  unfold printed, run, main_try.
  destruct parsed as [e | params]; simpl.
  - intros [? | ?]; simplify_eq. right. by eexists _, _.
  - unfold bind. destruct (search params []) as [[e | repos] calls]; simpl.
    + intros [? | ?]; simplify_eq. right. by eexists _, _.
    + intros [? | ?]; simplify_eq. left. by eexists _, _.
Qed.

(** C2. In every envelope a run prints, the key [suggestions] is
    present exactly when [success] is true and [count] is 0; this
    holds for the run of any parsed parameters, hence for every run
    of [main]. *)
Theorem suggestions_iff_empty_success :
  (∀ parsed envelope,
     printed (tool_run parsed).1 envelope →
     is_Some (envelope !! "suggestions")
     ↔ envelope !! "success" = Some (JBool true)
       ∧ envelope !! "count" = Some (JInt 0))
  ∧ (∀ parameters result calls envelope,
       tool_main parameters = Some (result, calls) →
       printed result envelope →
       is_Some (envelope !! "suggestions")
       ↔ envelope !! "success" = Some (JBool true)
         ∧ envelope !! "count" = Some (JInt 0)).
Proof.
  assert (Hrun : ∀ parsed envelope,
     printed (tool_run parsed).1 envelope →
     is_Some (envelope !! "suggestions")
     ↔ envelope !! "success" = Some (JBool true)
       ∧ envelope !! "count" = Some (JInt 0)).
  { intros parsed envelope Hp.
    destruct (run_envelope _ _ Hp) as [(repos & params & ->) | (e & ty & ->)].
    - rewrite format_output_suggestions, format_output_success,
        format_output_count.
      destruct repos as [| repo repos]; simpl.
      + split; [done | by eexists].
      + split; [by intros [? ?] | intros [_ ?]; simplify_eq; lia].
    - destruct (error_output_lookup e ty) as (-> & _ & -> & ->).
      split; [by intros [? ?] | by intros [? _]]. }
  split; [done |].
  intros parameters result calls envelope Hmain Hp.
  unfold main in Hmain.
  destruct (parse_parameters parameters) as [parsed |]; [| done].
  simpl in Hmain. injection Hmain as Hmain.
  apply (Hrun parsed). by rewrite Hmain.
Qed.

(** ** The advisory flag *)

Lemma normalize_loop_fallback params b items acc calls :
  loop (with_fallback_search params b) items acc calls
  = loop params items acc calls.
Proof.
  revert acc calls. induction items as [| item items IH]; intros; [done |].
  simpl. unfold bind.
  change (loop_item (with_fallback_search params b) item)
    with (loop_item params item).
  destruct (loop_item params item calls) as [[e | repo] calls']; [done |].
  apply IH.
Qed.

Lemma run_fallback params b :
  tool_run (inr (with_fallback_search params b)) = tool_run (inr params).
Proof.
  unfold run, main_try, search_repositories, bind.
  change (search_try (with_fallback_search params b))
    with (search_try params).
  destruct (search_try params []) as [[e | data] calls]; [done |].
  destruct (get_method data "items" (JArr []) calls) as [[e | v] c1]; [done |].
  destruct (iterate v c1) as [[e | items] c2]; [done |].
  rewrite normalize_loop_fallback.
  destruct (loop params items [] c2) as [[e | repos] c3]; [done |].
  done.
Qed.

Lemma parameters_of_dict_fallback (d : gmap string json) b b' :
  parameters_of_dict (<["fallback_search" := JBool b]> d)
  = set_fallback_search b
      <$> parameters_of_dict (<["fallback_search" := JBool b']> d).
Proof.
  unfold parameters_of_dict, max_results_entry, optional_str_entry,
    int_entry, str_entry, bool_entry.
  rewrite !lookup_insert_eq.
  rewrite !(lookup_insert_ne d "fallback_search") by done.
  destruct (d !! "max_results") as [[| | z | | |] |]; try done;
    (destruct (d !! "keywords") as [[| | | kw | |] |]; try done;
     destruct (d !! "language") as [[| | | lang | |] |]; try done;
     destruct (d !! "min_stars") as [[| | stars | | |] |]; try done;
     destruct (d !! "topic") as [[| | | top | |] |]; try done;
     destruct (d !! "sort_by") as [[| | | srt | |] |]; try done;
     destruct (d !! "include_readme") as [[| rd | | | |] |]; done).
Qed.

Lemma parse_parameters_fallback (d : gmap string json) b b' :
  parse_parameters (Loaded (JObj (<["fallback_search" := JBool b]> d)))
  = set_fallback_search b
      <$> parse_parameters
            (Loaded (JObj (<["fallback_search" := JBool b']> d))).
Proof.
  unfold parse_parameters, has_keywords.
  rewrite !(lookup_insert_ne d "fallback_search") by done.
  destruct (bool_decide (is_Some (d !! "keywords"))); [| done].
  apply parameters_of_dict_fallback.
Qed.

(** C9. The value of [fallback_search] changes nothing: two runs
    whose parameters differ in that field only, against the same
    provider, print the same envelope, exit with the same code and
    send the same requests; so do two runs of [main] on documents that
    differ in that entry only; and an empty result carries its
    suggestions whatever the value. *)
Theorem fallback_search_no_effect :
  (∀ params b,
     tool_run (inr (with_fallback_search params b)) = tool_run (inr params))
  ∧ (∀ (d : gmap string json) b b',
       tool_main (Loaded (JObj (<["fallback_search" := JBool b]> d)))
       = tool_main (Loaded (JObj (<["fallback_search" := JBool b']> d))))
  ∧ (∀ params b,
       format_output [] (Some (with_fallback_search params b))
         !! "suggestions"
       = Some (JArr (JStr <$> _generate_search_suggestions params))).
Proof.
  split; [apply run_fallback | split].
  - intros d b b'. unfold main.
    rewrite (parse_parameters_fallback d b b').
    destruct (parse_parameters _) as [[e | params] |]; simpl; [done | | done].
    by rewrite run_fallback.
  - intros params b. rewrite format_output_suggestions. simpl.
    by destruct params.
Qed.

(** X2. A document that is no container (a number here) raises
    [TypeError] in the membership test, which [main] reports as
    [unexpected_error]; no request is sent. *)
Lemma number_document_unexpected_error z :
  ∃ envelope,
    main remote b64decode decode_utf8 (Loaded (JInt z))
    = Some ({| stdout := None; stderr := Some envelope; exit_code := 1 |},
            [])
    ∧ envelope !! "error_type" = Some (JStr "unexpected_error").
Proof.
  eexists. split; [reflexivity |]. unfold error_output. by simplify_map_eq.
Qed.

End Properties.

(** X4. In the earlier copy an empty result is a success envelope
    with [count] 0 and no suggestions. *)
Lemma scripts_copy_no_suggestions repositories :
  Scripts.format_output repositories !! "success" = Some (JBool true)
  ∧ Scripts.format_output repositories !! "suggestions" = None
  ∧ Scripts.format_output [] !! "count" = Some (JInt 0).
Proof. unfold Scripts.format_output. by simplify_map_eq. Qed.

(** ** The theorems at the sample provider *)

(** A run against the sample provider: four requests, a success
    envelope with three repositories, and a null README for the hit
    without a README and for the hit whose README does not decode. *)
Example sample_run :
  ∃ envelope,
    Demo.run (inr (default_parameters "parser"))
    = ({| stdout := Some envelope; stderr := None; exit_code := 0 |},
       [SearchRequest "parser" "stars" "desc" 5;
        ReadmeRequest (JStr "octo/bare"); ReadmeRequest (JStr "octo/long");
        ReadmeRequest (JStr "octo/odd")])
    ∧ envelope !! "success" = Some (JBool true)
    ∧ envelope !! "count" = Some (JInt 3)
    ∧ envelope !! "suggestions" = None
    ∧ Demo.readme_entries envelope
      = [Some JNull;
         Some (JStr (Str.slice_to 5000 Demo.long_readme
                       +:+ truncation_marker));
         Some JNull].
Proof.
  eexists. split; [vm_compute; reflexivity |].
  repeat split; vm_compute; reflexivity.
Qed.

Lemma readme_failure_absent_witness :
  include_readme (default_parameters "parser") = true
  ∧ forallb well_formed_item Demo.hits = true
  ∧ ∃ repositories calls,
      Demo.run (inr (default_parameters "parser"))
      = ({| stdout := Some (format_output repositories
                              (Some (default_parameters "parser")));
            stderr := None; exit_code := 0 |}, calls)
      ∧ length repositories = 3%nat.
Proof.
  split; [reflexivity |]. split; [vm_compute; reflexivity |].
  destruct (readme_failure_absent Demo.provider Demo.b64decode
              Demo.decode_ascii (default_parameters "parser") 200 "{}"
              Demo.hits_body Demo.hits)
    as (repositories & calls & Hrun & _ & _ & _ & Hlen & _);
    try (vm_compute; reflexivity).
  exists repositories, calls. split; [exact Hrun | exact Hlen].
Defined.

Lemma suggestions_iff_empty_success_witness :
  printed (Demo.run (inr (default_parameters "nothing here"))).1
    (format_output [] (Some (default_parameters "nothing here")))
  ∧ (is_Some (format_output [] (Some (default_parameters "nothing here"))
                !! "suggestions")
     ↔ format_output [] (Some (default_parameters "nothing here"))
         !! "success" = Some (JBool true)
       ∧ format_output [] (Some (default_parameters "nothing here"))
           !! "count" = Some (JInt 0)).
Proof.
  split; [left; vm_compute; reflexivity |].
  apply (proj1 (suggestions_iff_empty_success Demo.provider Demo.b64decode
                  Demo.decode_ascii)
           (inr (default_parameters "nothing here"))).
  left; vm_compute; reflexivity.
Defined.

Lemma max_results_capped_witness :
  parse_parameters (Loaded (JObj Demo.capped_document))
  = Some (inr {| keywords := "x"; language := None; min_stars := 0;
                 topic := None; sort_by := "stars"; max_results := 10;
                 include_readme := true; fallback_search := true |})
  ∧ Demo.capped_document !! "max_results" = Some (JInt 25)
  ∧ max_results {| keywords := "x"; language := None; min_stars := 0;
                   topic := None; sort_by := "stars"; max_results := 10;
                   include_readme := true; fallback_search := true |} = 10.
Proof.
  split; [vm_compute; reflexivity |]. split; [vm_compute; reflexivity |].
  apply (max_results_capped Demo.provider Demo.capped_document);
    vm_compute; reflexivity.
Defined.

(** C3, as the specification words it, fails at [max_results] 0: the
    parsed value is 0, which is neither the default 5 nor inside
    the interval from 1 to 10, and the search asks for a page of 0. *)
Lemma max_results_zero_kept :
  ∃ params,
    parse_parameters (Loaded (JObj Demo.zero_document)) = Some (inr params)
    ∧ Demo.zero_document !! "max_results" = Some (JInt 0)
    ∧ max_results params = 0
    ∧ max_results params ≠ 5
    ∧ ¬ (1 ≤ max_results params ≤ 10)
    ∧ (search_request Demo.provider params []).2
      = [SearchRequest "x" "stars" "desc" 0].
Proof.
  eexists. split; [vm_compute; reflexivity |].
  split; [vm_compute; reflexivity |]. simpl.
  split; [reflexivity |]. split; [discriminate |]. split; [lia |].
  vm_compute; reflexivity.
Qed.

Lemma readme_truncation_witness :
  (5000 < String.length Demo.long_readme)%nat
  ∧ ∃ stored,
      Demo.fetch_readme (JStr "octo/long") []
      = (inr (Some stored), [ReadmeRequest (JStr "octo/long")])
      ∧ stored = Str.slice_to 5000 Demo.long_readme +:+ Str.newline
                   +:+ Str.newline +:+ "[README truncated...]"
      ∧ String.length (Str.slice_to 5000 Demo.long_readme) = 5000%nat.
Proof.
  assert (Hlong : (5000 < String.length Demo.long_readme)%nat)
    by (apply Nat.ltb_lt; vm_compute; reflexivity).
  split; [exact Hlong |].
  destruct (readme_truncation Demo.provider Demo.b64decode Demo.decode_ascii
              (JStr "octo/long") [] 200 "{}" Demo.long_readme_body
              Demo.long_readme_b64 Demo.long_readme_raw Demo.long_readme)
    as (stored & Hfetch & Htrunc & _);
    try (vm_compute; reflexivity); [discriminate |].
  exists stored. split; [exact Hfetch | exact (Htrunc Hlong)].
Defined.

Lemma missing_keywords_validation_error_witness :
  Demo.no_keywords_document !! "keywords" = None
  ∧ ∃ envelope,
      Demo.main (Loaded (JObj Demo.no_keywords_document))
      = Some ({| stdout := None; stderr := Some envelope; exit_code := 1 |},
              [])
      ∧ envelope !! "success" = Some (JBool false)
      ∧ envelope !! "error_type" = Some (JStr "validation_error")
      ∧ envelope !! "error" = Some (JStr "'keywords' is required").
Proof.
  split; [vm_compute; reflexivity |].
  apply (missing_keywords_validation_error Demo.provider Demo.b64decode
           Demo.decode_ascii Demo.no_keywords_document).
  vm_compute; reflexivity.
Defined.

Lemma abbreviation_loop_first_match_witness :
  "ai" ∈ Str.split "ai training"
  ∧ abbreviation_loop abbreviations "ai training" []
    = ["Try expanding abbreviations: " +:+ Str.dquote
         +:+ Str.replace "ai" "artificial intelligence" "ai training"
         +:+ Str.dquote].
Proof.
  assert (Hin : "ai" ∈ Str.split "ai training") by compute_done.
  split; [exact Hin |].
  apply (abbreviation_loop_first_match [("ml", "machine learning")] "ai"
           "artificial intelligence" (tail (tail abbreviations))
           "ai training" []); [| exact Hin].
  intros a e Ha. apply list_elem_of_singleton in Ha. injection Ha as -> ->.
  compute_done.
Defined.

(** * Further properties *)

(** ** Text lemmas *)

(** One step of [append] on a text that starts with a character. *)
Ltac append_step :=
  repeat match goal with
    | |- context [String ?c ?s +:+ ?t] =>
        change (String c s +:+ t) with (String c (s +:+ t))
    | |- context [EmptyString +:+ ?t] =>
        change (EmptyString +:+ t) with t
    end.

Lemma append_empty_r s : s +:+ EmptyString = s.
Proof. induction s as [| c s IH]; append_step; [done | by rewrite IH]. Qed.

Lemma append_assoc_str s1 s2 s3 : (s1 +:+ s2) +:+ s3 = s1 +:+ (s2 +:+ s3).
Proof.
  induction s1 as [| c s1 IH]; append_step; simpl; [done | by rewrite IH].
Qed.

Lemma length_append_str s1 s2 :
  String.length (s1 +:+ s2) = (String.length s1 + String.length s2)%nat.
Proof.
  induction s1 as [| c s1 IH]; append_step; simpl; [done | by rewrite IH].
Qed.

Lemma no_space_append s1 s2 :
  Str.no_space (s1 +:+ s2) = Str.no_space s1 && Str.no_space s2.
Proof.
  induction s1 as [| c s1 IH]; append_step; simpl; [done |].
  rewrite IH. by rewrite andb_assoc.
Qed.

(** [split] yields tokens. *)
Lemma split_from_tokens s : ∀ tok,
  Str.no_space tok = true →
  Forall (λ t, Str.is_token t = true) (Str.split_from tok s).
Proof.
  induction s as [| c s IH]; intros tok Htok; simpl.
  - destruct tok; simpl; [constructor |].
    constructor; [| constructor]. unfold Str.is_token. by rewrite Htok.
  - destruct (Str.isspace c) eqn:Hc.
    + destruct tok as [| a tok]; simpl; [by apply IH |].
      constructor; [| by apply IH]. unfold Str.is_token. by rewrite Htok.
    + apply IH. rewrite no_space_append. simpl. by rewrite Htok, Hc.
Qed.

Lemma split_tokens s : Forall (λ t, Str.is_token t = true) (Str.split s).
Proof. by apply split_from_tokens. Qed.

Lemma split_from_no_space t : ∀ tok rest,
  Str.no_space t = true →
  Str.split_from tok (t +:+ rest) = Str.split_from (tok +:+ t) rest.
Proof.
  induction t as [| c t IH]; intros tok rest Ht; append_step; simpl.
  - by rewrite append_empty_r.
  - simpl in Ht. apply andb_true_iff in Ht as [Hc Ht].
    apply negb_true_iff in Hc. rewrite Hc, IH by done.
    by rewrite append_assoc_str.
Qed.

(** Joining tokens with single spaces and splitting again gives the
    tokens back. *)
Lemma split_join tokens :
  Forall (λ t, Str.is_token t = true) tokens →
  Str.split (Str.join " " tokens) = tokens.
Proof.
  unfold Str.split. induction 1 as [| t tokens Ht Hrest IH]; [done |].
  unfold Str.is_token in Ht. apply andb_true_iff in Ht as [Hne Hns].
  destruct tokens as [| t' tokens].
  - simpl. rewrite <- (append_empty_r t) at 1.
    rewrite split_from_no_space by done. append_step. simpl.
    by destruct t.
  - change (Str.join " " (t :: t' :: tokens))
      with (t +:+ " " +:+ Str.join " " (t' :: tokens)).
    rewrite split_from_no_space by done. append_step. simpl.
    destruct t; [done |]. simpl. f_equal. exact IH.
Qed.

(** ** The suggestion engine *)

Lemma abbreviation_loop_acc items kw acc :
  abbreviation_loop items kw acc = acc ++ abbreviation_loop items kw [].
Proof.
  induction items as [| [a e] items IH]; simpl; [by rewrite app_nil_r |].
  by case_bool_decide.
Qed.

Lemma topic_loop_acc items kw acc :
  topic_loop items kw acc = acc ++ topic_loop items kw [].
Proof.
  induction items as [| [k t] items IH]; simpl; [by rewrite app_nil_r |].
  by destruct (Str.contains k kw).
Qed.

Lemma abbreviation_loop_shape items kw :
  ∃ rest,
    abbreviation_loop items kw []
    = if existsb (λ entry : string * string,
                    bool_decide (entry.1 ∈ Str.split kw)) items
      then ["Try expanding abbreviations: " +:+ rest]
      else [].
Proof.
  induction items as [| [a e] items [rest IH]]; simpl; [by exists EmptyString |].
  case_bool_decide; simpl; [by eexists | by exists rest].
Qed.

Lemma topic_loop_shape items kw :
  ∃ rest,
    topic_loop items kw []
    = if existsb (λ entry : string * string, Str.contains entry.1 kw) items
      then ["Try adding topic filter: topic:" +:+ rest]
      else [].
Proof.
  induction items as [| [k t] items [rest IH]]; simpl; [by exists EmptyString |].
  destruct (Str.contains k kw); simpl; [by eexists | by exists rest].
Qed.

(** The function is its five parts in order, or the two generic texts
    when all five are empty. *)
Lemma generate_parts params :
  _generate_search_suggestions params
  = if bool_decide (heuristic_suggestions params = [])
    then generic_suggestions
    else heuristic_suggestions params.
Proof.
  unfold _generate_search_suggestions, heuristic_suggestions,
    abbreviation_part, stars_part, language_part, fewer_part, topic_part,
    generic_suggestions.
  cbv zeta beta.
  set (kwl := Str.lower (keywords params)).
  set (A := abbreviation_loop abbreviations kwl []).
  set (T := topic_loop topic_suggestions kwl).
  destruct (min_stars params >? 100), (truthy_opt (language params)),
    (2 <? length (Str.split (keywords params)))%nat,
    (truthy_opt (topic params));
    unfold negb; cbv beta iota; unfold T;
    rewrite ?(topic_loop_acc topic_suggestions kwl (_ ++ _)),
      ?(topic_loop_acc topic_suggestions kwl A);
    by rewrite <- ?app_assoc, ?app_nil_l, ?app_nil_r.
Qed.

Lemma part_shapes params :
  ∃ a s l k t,
    abbreviation_part params
    = (if abbreviation_fires params
       then ["Try expanding abbreviations: " +:+ a] else [])
    ∧ stars_part params
      = (if stars_fires params
         then ["Try lowering min_stars from " +:+ s] else [])
    ∧ language_part params
      = (if language_fires params
         then ["Try searching without the language filter (remove language: "
                 +:+ l] else [])
    ∧ fewer_part params
      = (if fewer_fires params
         then ["Try using fewer keywords: " +:+ k] else [])
    ∧ topic_part params
      = (if topic_fires params
         then ["Try adding topic filter: topic:" +:+ t] else []).
Proof.
  destruct (abbreviation_loop_shape abbreviations (Str.lower (keywords params)))
    as [a Ha].
  destruct (topic_loop_shape topic_suggestions (Str.lower (keywords params)))
    as [t Ht].
  exists a. eexists. eexists. eexists. exists t.
  unfold abbreviation_part, stars_part, language_part, fewer_part, topic_part,
    abbreviation_fires, stars_fires, language_fires, fewer_fires, topic_fires.
  split; [exact Ha |]. split; [by destruct (_ >? _) |].
  split; [by destruct (truthy_opt _) |]. split; [by destruct (_ <? _)%nat |].
  destruct (truthy_opt (topic params)); simpl; [done | exact Ht].
Qed.

Lemma prefix_empty s : String.prefix EmptyString s = true.
Proof. by destruct s. Qed.

Lemma heuristic_text_not_generic s :
  is_heuristic_text s = true → s ∉ generic_suggestions.
Proof.
  intros Hs Hin. unfold generic_suggestions in Hin.
  apply elem_of_cons in Hin as [-> | Hin]; [by vm_compute in Hs |].
  apply list_elem_of_singleton in Hin as ->. by vm_compute in Hs.
Qed.

Ltac suggestion_cases params :=
  rewrite (generate_parts params); unfold heuristic_suggestions;
  destruct (part_shapes params) as (a & s & l & k & t & -> & -> & -> & -> & ->);
  unfold heuristic_fires;
  destruct (abbreviation_fires params), (stars_fires params),
    (language_fires params), (fewer_fires params), (topic_fires params).

(** X5. The engine always returns between one and five suggestions,
    and none of them is the empty text. *)
Theorem suggestions_bounds params :
  (1 ≤ length (_generate_search_suggestions params) ≤ 5)%nat
  ∧ Forall (λ s, s ≠ EmptyString) (_generate_search_suggestions params).
Proof.
  suggestion_cases params; (split; [simpl; lia |]);
    repeat constructor; by intros [=].
Qed.

(** X6. Each kind of suggestion is present exactly when its own test
    holds, whatever the other tests say, and the two generic texts are
    returned exactly when no test holds; they never stand beside a
    heuristic suggestion. *)
Theorem suggestion_kinds params :
  let result := _generate_search_suggestions params in
  has_kind "Try expanding abbreviations: " result = abbreviation_fires params
  ∧ has_kind "Try lowering min_stars from " result = stars_fires params
  ∧ has_kind "Try searching without the language filter (remove language: "
      result = language_fires params
  ∧ has_kind "Try using fewer keywords: " result = fewer_fires params
  ∧ has_kind "Try adding topic filter: topic:" result = topic_fires params
  ∧ (if heuristic_fires params
     then Forall (λ s, s ∉ generic_suggestions) result
     else result = generic_suggestions).
Proof.
  cbv zeta. suggestion_cases params;
    simpl; rewrite ?prefix_empty;
    (repeat (split; [reflexivity |])); try reflexivity;
    repeat (constructor;
            [by apply heuristic_text_not_generic; unfold is_heuristic_text;
                simpl; rewrite ?prefix_empty |]);
    constructor.
Qed.

(** X7. When the keywords have more than two tokens, the engine
    suggests the first two joined by a space, in their original case,
    and that shorter text splits again into exactly those two tokens. *)
Theorem fewer_keywords_two_tokens params :
  fewer_fires params = true →
  let tokens := Str.split (keywords params) in
  let shorter := Str.join " " (take 2 tokens) in
  ("Try using fewer keywords: " +:+ Str.dquote +:+ shorter +:+ Str.dquote)
    ∈ _generate_search_suggestions params
  ∧ Str.split shorter = take 2 tokens
  ∧ length (Str.split shorter) = 2%nat.
Proof.
  intros Hf. cbv zeta. unfold fewer_fires in Hf.
  apply Nat.ltb_lt in Hf.
  assert (Hsplit : Str.split (Str.join " " (take 2 (Str.split (keywords params))))
                   = take 2 (Str.split (keywords params))).
  { apply split_join, Forall_take, split_tokens. }
  split; [| split; [done |]].
  - rewrite generate_parts.
    assert (Hin : ("Try using fewer keywords: " +:+ Str.dquote
                     +:+ Str.join " " (take 2 (Str.split (keywords params)))
                     +:+ Str.dquote) ∈ heuristic_suggestions params).
    { unfold heuristic_suggestions, fewer_part.
      apply Nat.ltb_lt in Hf. rewrite Hf.
      rewrite !elem_of_app. do 3 right. left. apply list_elem_of_singleton.
      reflexivity. }
    case_bool_decide as Hnil; [| done]. rewrite Hnil in Hin.
    by apply not_elem_of_nil in Hin.
  - rewrite Hsplit, length_take. lia.
Qed.

(** X8. The topic heuristic matches by substring: it adds one
    suggestion for the first key, in the order of declaration, that
    occurs anywhere in the lowercased keywords, also inside a word. *)
Lemma topic_loop_first_match before keyword topic after kw acc :
  (∀ k t, (k, t) ∈ before → Str.contains k kw = false) →
  Str.contains keyword kw = true →
  topic_loop (before ++ (keyword, topic) :: after) kw acc
  = acc ++ ["Try adding topic filter: topic:" +:+ Str.dquote +:+ topic
              +:+ Str.dquote].
Proof.
  induction before as [| [k t] before IH]; intros Hno Hin; simpl.
  - by rewrite Hin.
  - rewrite (Hno k t) by (by left).
    apply IH; [| done]. intros k' t' H'. apply (Hno k' t'). by right.
Qed.

(** ** Credentials and headers *)

Lemma lstrip_all_space w s :
  Str.all_space w = true → Str.lstrip (w +:+ s) = Str.lstrip s.
Proof.
  induction w as [| c w IH]; append_step; simpl; [done |].
  intros [Hc Hw]%andb_true_iff. rewrite Hc. by apply IH.
Qed.

Lemma rstrip_all_space w :
  Str.all_space w = true → Str.rstrip w = EmptyString.
Proof.
  induction w as [| c w IH]; simpl; [done |].
  intros [Hc Hw]%andb_true_iff. by rewrite (IH Hw), Hc.
Qed.

Lemma rstrip_no_space t w :
  Str.no_space t = true → Str.all_space w = true →
  Str.rstrip (t +:+ w) = t.
Proof.
  intros Ht Hw. induction t as [| c t IH]; append_step; simpl.
  - by apply rstrip_all_space.
  - simpl in Ht. apply andb_true_iff in Ht as [Hc Ht].
    apply negb_true_iff in Hc. by rewrite (IH Ht), Hc.
Qed.

(** [strip] removes the whitespace around a token. *)
Lemma strip_token w t w' :
  Str.all_space w = true → Str.is_token t = true →
  Str.all_space w' = true →
  Str.strip (w +:+ t +:+ w') = t.
Proof.
  intros Hw [Hne Ht]%andb_true_iff Hw'. unfold Str.strip.
  rewrite lstrip_all_space by done.
  destruct t as [| c t]; [done |]. append_step. simpl.
  pose proof Ht as Ht'. simpl in Ht'. apply andb_true_iff in Ht' as [Hc _].
  apply negb_true_iff in Hc. rewrite Hc.
  change (String c (t +:+ w')) with (String c t +:+ w').
  by apply rstrip_no_space.
Qed.

Lemma strip_all_space w :
  Str.all_space w = true → Str.strip w = EmptyString.
Proof.
  intros Hw. unfold Str.strip.
  rewrite <- (append_empty_r w), lstrip_all_space by done. done.
Qed.

(** X9. The first non-empty token among the constructor's argument,
    [GITHUB_TOKEN] and [GH_TOKEN] is sent as [Bearer] with the token
    unchanged; the [gh] command then has no part in the result, whatever
    it would do. *)
Theorem token_precedence token environ gh t :
  Str.is_empty t = false →
  token = Some t
  ∨ (truthy_opt token = false ∧ environ !! "GITHUB_TOKEN" = Some t)
  ∨ (truthy_opt token = false
     ∧ truthy_opt (environ !! "GITHUB_TOKEN") = false
     ∧ environ !! "GH_TOKEN" = Some t) →
  init_token token environ gh = inr (Some t)
  ∧ client_headers token environ gh = inr (_build_headers (Some t))
  ∧ _build_headers (Some t) !! "Authorization" = Some ("Bearer " +:+ t).
Proof.
  intros Ht Hcase.
  assert (Htruthy : truthy_opt (Some t) = true) by (simpl; by rewrite Ht).
  assert (Hinit : init_token token environ gh = inr (Some t)).
  { unfold init_token, _get_token, or_opt.
    destruct Hcase as [-> | [(Hno & Henv) | (Hno & Hno' & Henv)]].
    - by rewrite Htruthy.
    - by rewrite Hno, Henv, Htruthy, Htruthy.
    - by rewrite Hno, Hno', Henv, Htruthy. }
  split; [done |]. split.
  - unfold client_headers. by rewrite Hinit.
  - unfold _build_headers. rewrite Htruthy. by rewrite lookup_insert_eq.
Qed.

(** X10. With no token in the argument or the environment, the token is
    the standard output of a successful [gh auth token], without the
    whitespace around it. *)
Theorem token_from_gh token environ w t w' :
  truthy_opt token = false →
  truthy_opt (environ !! "GITHUB_TOKEN") = false →
  truthy_opt (environ !! "GH_TOKEN") = false →
  Str.all_space w = true → Str.is_token t = true →
  Str.all_space w' = true →
  init_token token environ (GhCompleted 0 (w +:+ t +:+ w')) = inr (Some t)
  ∧ ∃ headers,
      client_headers token environ (GhCompleted 0 (w +:+ t +:+ w'))
      = inr headers
      ∧ headers !! "Authorization" = Some ("Bearer " +:+ t).
Proof.
  intros Hno Hno1 Hno2 Hw Ht Hw'.
  assert (Hinit : init_token token environ (GhCompleted 0 (w +:+ t +:+ w'))
                  = inr (Some t)).
  { unfold init_token, _get_token, or_opt. rewrite Hno, Hno1, Hno2. simpl.
    by rewrite strip_token. }
  split; [done |]. unfold client_headers. rewrite Hinit.
  eexists. split; [done |]. unfold _build_headers.
  apply andb_true_iff in Ht as [Hne _].
  assert (Htruthy : truthy_opt (Some t) = true) by done.
  rewrite Htruthy. by rewrite lookup_insert_eq.
Qed.

(** X11. When no token is found (none in the argument or the
    environment, and the command times out, is missing, fails or prints
    only whitespace) the client is still built, with the three fixed
    headers and no [Authorization] header. *)
Theorem no_token_no_authorization token environ gh :
  truthy_opt token = false →
  truthy_opt (environ !! "GITHUB_TOKEN") = false →
  truthy_opt (environ !! "GH_TOKEN") = false →
  gh_gives_nothing gh = true →
  ∃ headers,
    client_headers token environ gh = inr headers
    ∧ headers !! "Authorization" = None
    ∧ dom headers = {["Accept"; "X-GitHub-Api-Version"; "User-Agent"]}
    ∧ headers !! "Accept" = Some "application/vnd.github+json"
    ∧ headers !! "X-GitHub-Api-Version" = Some "2022-11-28"
    ∧ headers !! "User-Agent" = Some "GitHub-Search-Agent-Tool/1.0".
Proof.
  intros Hno Hno1 Hno2 Hgh.
  assert (Hinit : ∃ found, init_token token environ gh = inr found
                           ∧ truthy_opt found = false).
  { unfold init_token, _get_token, or_opt. rewrite Hno, Hno1, Hno2.
    destruct gh as [rc out | | | name]; simpl in *;
      [| by exists None | by exists None | done].
    destruct (rc =? 0); simpl in *; [| by exists None].
    eexists. split; [done |]. by rewrite strip_all_space. }
  destruct Hinit as (found & Hinit & Hfound).
  unfold client_headers. rewrite Hinit. eexists. split; [done |].
  unfold _build_headers. rewrite Hfound.
  split; [by simplify_map_eq |].
  split; [rewrite !dom_insert_L, dom_empty_L; set_solver |].
  by simplify_map_eq.
Qed.

(** ** The search loop on any items *)

Lemma raises_unexpected_only_ret {A} (a : A) : raises_unexpected_only (ret a).
Proof. by intros calls e calls'. Qed.

Lemma raises_unexpected_only_bind {A B} (m : M A) (k : A → M B) :
  raises_unexpected_only m → (∀ a, raises_unexpected_only (k a)) →
  raises_unexpected_only (bind m k).
Proof.
  intros Hm Hk calls e calls'. unfold bind.
  destruct (m calls) as [[e0 | a] c] eqn:E; intros H.
  - injection H as <- <-. by eapply Hm.
  - by eapply Hk.
Qed.

Lemma raises_unexpected_only_subscript v key :
  raises_unexpected_only (subscript v key).
Proof.
  intros calls e calls'. destruct v; simpl; try by intros [= <- <-].
  destruct (_ !! _); by intros [= <- <-].
Qed.

Lemma raises_unexpected_only_get_method v key dflt :
  raises_unexpected_only (get_method v key dflt).
Proof. intros calls e calls'. destruct v; simpl; by intros [= <- <-]. Qed.

Lemma raises_unexpected_only_iterate v : raises_unexpected_only (iterate v).
Proof. intros calls e calls'. destruct v; simpl; by intros [= <- <-]. Qed.

Lemma make_repository_raises item : raises_unexpected_only (make_repository item).
Proof.
  unfold make_repository.
  repeat (apply raises_unexpected_only_bind;
          [ apply raises_unexpected_only_subscript
            || apply raises_unexpected_only_get_method
          | intros ? ]).
  apply raises_unexpected_only_bind; [| intros; apply raises_unexpected_only_ret].
  destruct (truthy _); [| apply raises_unexpected_only_ret].
  apply raises_unexpected_only_bind; intros;
    apply raises_unexpected_only_get_method.
Qed.

Lemma repository_of_error item e :
  repository_of item = inl e →
  is_ValueError e = false ∧ is_RuntimeError e = false.
Proof.
  intros H. apply (make_repository_raises item [] e []).
  rewrite make_repository_calls. by rewrite H.
Qed.

Section Runs.

Context (remote : list request → request → response).
Context (b64decode : string → option (list Byte.byte)).
Context (decode_utf8 : list Byte.byte → option string).

Local Abbreviation fetch := (_fetch_readme remote b64decode decode_utf8).
Local Abbreviation loop_item := (normalize_item remote b64decode decode_utf8).
Local Abbreviation loop := (normalize_loop remote b64decode decode_utf8).
Local Abbreviation search_try := (search_request remote).
Local Abbreviation search := (search_repositories remote b64decode decode_utf8).
Local Abbreviation tool_run := (run remote b64decode decode_utf8).
Local Abbreviation tool_main := (main remote b64decode decode_utf8).

(** The README requests of a loop over [items]. *)
Local Abbreviation readme_requests params items :=
  (if include_readme params
   then ReadmeRequest <$> (full_name_of <$> items) else []).

(** One turn of the loop: the construction of the record raises, or
    the record is returned after at most one README request. *)
Lemma normalize_item_cases params item calls :
  (∃ e, repository_of item = inl e
        ∧ loop_item params item calls = (inl e, calls))
  ∨ (∃ repo readme,
        repository_of item = inr repo
        ∧ loop_item params item calls
          = (inr (Repository.set_readme_content repo readme),
             calls ++ readme_requests params [item])
        ∧ (include_readme params = false → readme = None)).
Proof.
  unfold normalize_item, bind. rewrite make_repository_calls.
  destruct (repository_of item) as [e | repo] eqn:Hrepo; [left; by eexists |].
  right. destruct (repository_of_inr _ _ Hrepo) as (Hsub & Hfn & Hnone).
  destruct (include_readme params).
  - rewrite Hsub.
    destruct (fetch_readme_returns remote b64decode decode_utf8
                (Repository.full_name repo) calls) as [readme Hfetch].
    rewrite Hfetch. exists repo, readme. simpl. by rewrite Hfn.
  - exists repo, None. rewrite Hnone. unfold ret. by rewrite app_nil_r.
Qed.

Lemma normalize_loop_cases params items : ∀ acc calls,
  (forallb well_formed_item items = true
   ∧ ∃ repos,
       loop params items acc calls
       = (inr (acc ++ repos), calls ++ readme_requests params items)
       ∧ Forall2 (λ item repo,
            repository_of item
            = inr (Repository.set_readme_content repo None)) items repos
       ∧ (include_readme params = false →
          Forall (λ repo, Repository.readme_content repo = None) repos))
  ∨ (forallb well_formed_item items = false
     ∧ ∃ e rest,
         loop params items acc calls = (inl e, calls ++ rest)
         ∧ is_ValueError e = false ∧ is_RuntimeError e = false
         ∧ forallb is_readme_request rest = true
         ∧ (include_readme params = false → rest = [])).
Proof.
  induction items as [| item items IH]; intros acc calls.
  - left. split; [done |]. exists []. split; [| by split].
    simpl. unfold ret. rewrite app_nil_r.
    destruct (include_readme params); simpl; by rewrite app_nil_r.
  - change (loop params (item :: items) acc calls)
      with (bind (loop_item params item)
              (λ repo, loop params items (acc ++ [repo])) calls).
    change (forallb well_formed_item (item :: items))
      with (well_formed_item item && forallb well_formed_item items).
    unfold bind, well_formed_item at 1 3.
    destruct (normalize_item_cases params item calls)
      as [(e & Hrepo & Hrun) | (repo & readme & Hrepo & Hrun & Hreadme)];
      rewrite Hrepo, Hrun; cbv beta iota.
    + right. split; [done |]. exists e, [].
      destruct (repository_of_error _ _ Hrepo) as [? ?].
      by rewrite app_nil_r.
    + rewrite !andb_true_l.
      destruct (IH (acc ++ [Repository.set_readme_content repo readme])
                  (calls ++ readme_requests params [item]))
        as [(Hwf & repos & Hloop & Hlen & Hnone)
           | (Hwf & e & rest & Hloop & He1 & He2 & Hrest & Hoff)];
        rewrite Hloop.
      * left. split; [done |].
        exists (Repository.set_readme_content repo readme :: repos).
        split; [| split].
        -- rewrite <- !app_assoc. simpl.
           by destruct (include_readme params).
        -- constructor; [| done]. rewrite Hrepo. f_equal.
           destruct (repository_of_inr _ _ Hrepo) as (_ & _ & Hset).
           rewrite <- Hset at 1. by destruct repo.
        -- intros Hoff. constructor; [| by apply Hnone].
           rewrite (Hreadme Hoff). by destruct repo.
      * right. split; [done |].
        exists e, (readme_requests params [item] ++ rest).
        rewrite <- app_assoc. split; [done |].
        split; [done |]. split; [done |]. split.
        -- rewrite forallb_app, Hrest. by destruct (include_readme params).
        -- intros Hno. rewrite (Hoff Hno). by rewrite Hno.
Qed.

Lemma readme_requests_all full_names :
  forallb is_readme_request (ReadmeRequest <$> full_names) = true.
Proof. by induction full_names. Qed.

Lemma report_error_unexpected e :
  is_ValueError e = false → is_RuntimeError e = false →
  report_error e
  = {| stdout := None; stderr := Some (error_output e "unexpected_error");
       exit_code := 1 |}.
Proof. intros H1 H2. unfold report_error. by rewrite H1, H2. Qed.

(** What [search_repositories] does once the provider has answered the
    search with a success status and a JSON body. *)
Lemma search_after_json params status_code text data :
  remote [] (search_request_of params)
  = Reply status_code text (Loaded data) →
  is_success status_code = true →
  match items_of data with
  | Some items =>
      search params [] = loop params items [] [search_request_of params]
  | None =>
      ∃ e, search params [] = (inl e, [search_request_of params])
           ∧ is_ValueError e = false ∧ is_RuntimeError e = false
  end.
Proof.
  intros Hr Hs. unfold search_repositories, items_of, bind.
  rewrite (search_request_success remote params [] _ _ _ Hr Hs).
  destruct data as [| | | | | d]; simpl; try by eexists.
  destruct (default (JArr []) (d !! "items")); simpl; try by eexists.
Qed.

(** The outcomes of a run, by the provider's answer to the search. *)
Lemma run_cases params :
  match remote [] (search_request_of params) with
  | TransportError msg =>
      tool_run (inr params)
      = (report_error (RuntimeError ("Request failed: " +:+ msg)),
         [search_request_of params])
  | Reply status_code text body =>
      if is_success status_code then
        match body with
        | LoadError msg =>
            tool_run (inr params)
            = (report_error (JSONDecodeError msg), [search_request_of params])
        | Loaded data =>
            if normalizable data then
              ∃ items repos,
                items_of data = Some items
                ∧ tool_run (inr params)
                  = ({| stdout := Some (format_output repos (Some params));
                        stderr := None; exit_code := 0 |},
                     search_request_of params :: readme_requests params items)
                ∧ Forall2 (λ item repo,
                     repository_of item
                     = inr (Repository.set_readme_content repo None))
                    items repos
                ∧ (include_readme params = false →
                   Forall (λ repo, Repository.readme_content repo = None)
                     repos)
            else
              ∃ e rest,
                tool_run (inr params)
                = (report_error e, search_request_of params :: rest)
                ∧ is_ValueError e = false ∧ is_RuntimeError e = false
                ∧ forallb is_readme_request rest = true
                ∧ (include_readme params = false → rest = [])
        end
      else
        tool_run (inr params)
        = (report_error
             (RuntimeError ("GitHub API error: " +:+ Str.of_int status_code
                              +:+ " - " +:+ text)),
           [search_request_of params])
  end.
Proof.
  destruct (remote [] (search_request_of params))
    as [msg | sc text body] eqn:Hr.
  - unfold run, main_try, search_repositories, search_request, bind, catch,
      client_get. by rewrite Hr.
  - destruct (is_success sc) eqn:Hs.
    + destruct body as [msg | data].
      * unfold run, main_try, search_repositories, search_request, bind,
          catch, client_get, raise_for_status. by rewrite Hr, Hs.
      * pose proof (search_after_json params sc text data Hr Hs) as Hsearch.
        unfold normalizable. unfold run, main_try, bind.
        destruct (items_of data) as [items |].
        -- rewrite Hsearch.
           destruct (normalize_loop_cases params items [] [search_request_of params])
             as [(Hwf & repos & Hloop & Hlen & Hnone)
                | (Hwf & e & rest & Hloop & He1 & He2 & Hrest & Hoff)];
             rewrite Hwf, Hloop.
           ++ by exists items, repos.
           ++ by exists e, rest.
        -- destruct Hsearch as (e & -> & He1 & He2). by exists e, [].
    + unfold run, main_try, search_repositories, search_request, bind, catch,
        client_get, raise_for_status. by rewrite Hr, Hs.
Qed.

(** ** Outcomes of a run *)

(** X12. When the search request fails in transport, or is answered
    with a status outside 200..299, the run ends with exit code 1 and an
    [api_error] envelope on standard error that carries the transport
    message, or the status and the text of the response; nothing is
    printed on standard output and no README request is sent. *)
Theorem search_refused_api_error params :
  search_refused (remote [] (search_request_of params)) = true →
  ∃ envelope,
    tool_run (inr params)
    = ({| stdout := None; stderr := Some envelope; exit_code := 1 |},
       [search_request_of params])
    ∧ envelope !! "success" = Some (JBool false)
    ∧ envelope !! "error_type" = Some (JStr "api_error")
    ∧ envelope !! "error"
      = Some (JStr match remote [] (search_request_of params) with
                   | TransportError msg => "Request failed: " +:+ msg
                   | Reply status_code text _ =>
                       "GitHub API error: " +:+ Str.of_int status_code
                         +:+ " - " +:+ text
                   end).
Proof.
  intros Href. pose proof (run_cases params) as Hrun.
  destruct (remote [] (search_request_of params)) as [msg | sc text body];
    simpl in Href.
  - rewrite Hrun. eexists. split; [reflexivity |].
    unfold error_output. by simplify_map_eq.
  - apply negb_true_iff in Href. rewrite Href in Hrun. rewrite Hrun.
    eexists. split; [reflexivity |]. unfold error_output. by simplify_map_eq.
Qed.

(** X13. A search answered with a success status and a body that is
    not JSON ends as a [validation_error]: the [JSONDecodeError] of
    [response.json()] is a [ValueError], which no handler of
    [search_repositories] catches and the first handler of [main]
    does. *)
Theorem search_body_not_json_validation_error params status_code text msg :
  remote [] (search_request_of params)
  = Reply status_code text (LoadError msg) →
  is_success status_code = true →
  ∃ envelope,
    tool_run (inr params)
    = ({| stdout := None; stderr := Some envelope; exit_code := 1 |},
       [search_request_of params])
    ∧ envelope !! "error_type" = Some (JStr "validation_error")
    ∧ envelope !! "error" = Some (JStr msg).
Proof.
  intros Hr Hs. pose proof (run_cases params) as Hrun.
  rewrite Hr, Hs in Hrun. rewrite Hrun.
  eexists. split; [reflexivity |]. unfold error_output. by simplify_map_eq.
Qed.

(** X14. After a search answered with a success status and a JSON
    body, the run succeeds exactly when the body is normalizable (a
    dict whose items can be iterated and all have the required shape);
    otherwise it ends with exit code 1 and an [unexpected_error]
    envelope, and no partial list is printed. *)
Theorem run_after_json params status_code text data :
  remote [] (search_request_of params)
  = Reply status_code text (Loaded data) →
  is_success status_code = true →
  let result := (tool_run (inr params)).1 in
  if normalizable data
  then exit_code result = 0 ∧ stderr result = None
       ∧ ∃ envelope, stdout result = Some envelope
                     ∧ envelope !! "success" = Some (JBool true)
  else exit_code result = 1 ∧ stdout result = None
       ∧ ∃ envelope, stderr result = Some envelope
                     ∧ envelope !! "error_type"
                       = Some (JStr "unexpected_error").
Proof.
  intros Hr Hs. pose proof (run_cases params) as Hrun.
  rewrite Hr, Hs in Hrun. cbv zeta.
  destruct (normalizable data).
  - destruct Hrun as (items & repos & _ & -> & _). simpl.
    split; [done |]. split; [done |]. eexists. split; [done |].
    apply format_output_success.
  - destruct Hrun as (e & rest & -> & He1 & He2 & _).
    rewrite (report_error_unexpected e He1 He2). simpl.
    split; [done |]. split; [done |]. eexists. split; [done |].
    unfold error_output. by simplify_map_eq.
Qed.

(** X15. Every run on parsed parameters sends the search request
    first and once; every later request is a README request. *)
Theorem requests_shape params :
  ∃ rest,
    (tool_run (inr params)).2 = search_request_of params :: rest
    ∧ forallb is_readme_request rest = true.
Proof.
  pose proof (run_cases params) as Hrun.
  destruct (remote [] (search_request_of params)) as [msg | sc text body].
  - rewrite Hrun. by exists [].
  - destruct (is_success sc); [| rewrite Hrun; by exists []].
    destruct body as [msg | data]; [rewrite Hrun; by exists [] |].
    destruct (normalizable data).
    + destruct Hrun as (items & repos & _ & -> & _). eexists.
      split; [done |]. destruct (include_readme params); [| done].
      apply readme_requests_all.
    + destruct Hrun as (e & rest & -> & _ & _ & Hrest & _). by exists rest.
Qed.

(** X16. With README retrieval on, a successful run over N items
    sends N + 1 requests: the search, then one README request for each
    item, in the order of the items and with the item's [full_name],
    repeated names included. *)
Theorem readme_requests_per_item params status_code text data :
  include_readme params = true →
  remote [] (search_request_of params)
  = Reply status_code text (Loaded data) →
  is_success status_code = true →
  normalizable data = true →
  ∃ items,
    items_of data = Some items
    ∧ (tool_run (inr params)).2
      = search_request_of params
          :: (ReadmeRequest <$> (full_name_of <$> items))
    ∧ length (tool_run (inr params)).2 = S (length items).
Proof.
  intros Hinc Hr Hs Hn. pose proof (run_cases params) as Hrun.
  rewrite Hr, Hs, Hn in Hrun.
  destruct Hrun as (items & repos & Hitems & -> & _).
  exists items. rewrite Hinc. simpl. by rewrite !length_fmap.
Qed.

(** X17. With README retrieval off, the search request is the only
    request of a run, and every repository of a success envelope has
    no README. *)
Theorem no_readme_without_include params :
  include_readme params = false →
  (tool_run (inr params)).2 = [search_request_of params]
  ∧ ∀ envelope,
      stdout (tool_run (inr params)).1 = Some envelope →
      ∃ repos,
        envelope = format_output repos (Some params)
        ∧ Forall (λ repo, Repository.readme_content repo = None) repos.
Proof.
  intros Hinc. pose proof (run_cases params) as Hrun.
  destruct (remote [] (search_request_of params)) as [msg | sc text body].
  - by rewrite Hrun.
  - destruct (is_success sc); [| by rewrite Hrun].
    destruct body as [msg | data]; [by rewrite Hrun |].
    destruct (normalizable data).
    + destruct Hrun as (items & repos & _ & -> & _ & Hnone).
      rewrite Hinc. split; [done |]. simpl. intros envelope [= <-].
      exists repos. split; [done | by apply Hnone].
    + destruct Hrun as (e & rest & -> & He1 & He2 & _ & Hoff).
      rewrite (Hoff Hinc). split; [done |].
      by rewrite (report_error_unexpected e He1 He2).
Qed.

(** X24. In a successful run the repositories of the envelope are the
    records built from the provider's items, one for each item and in
    the provider's order; README retrieval changes nothing in a record
    but its README. *)
Theorem repositories_in_provider_order params status_code text data :
  remote [] (search_request_of params)
  = Reply status_code text (Loaded data) →
  is_success status_code = true →
  normalizable data = true →
  ∃ items repos,
    items_of data = Some items
    ∧ stdout (tool_run (inr params)).1
      = Some (format_output repos (Some params))
    ∧ format_output repos (Some params) !! "repositories"
      = Some (JArr (repository_dict <$> repos))
    ∧ length repos = length items
    ∧ Forall2 (λ item repo,
         repository_of item = inr (Repository.set_readme_content repo None))
        items repos.
Proof.
  intros Hr Hs Hn. pose proof (run_cases params) as Hrun.
  rewrite Hr, Hs, Hn in Hrun.
  destruct Hrun as (items & repos & Hitems & -> & Hrecs & _).
  exists items, repos. split; [done |]. split; [done |].
  split; [apply format_output_repositories |].
  split; [| done]. symmetry. by eapply Forall2_length.
Qed.

End Runs.

(** ** The search request *)

(** X18. The search always asks for descending order and for at most
    10 results per page, with the built query; the sort key is the
    parameter's when it is one of the four the provider knows, and
    [stars] for any other text. *)
Theorem search_request_shape params :
  ∃ sort,
    search_request_of params
    = SearchRequest (_build_search_query params) sort "desc"
        (Z.min (max_results params) 10)
    ∧ Z.min (max_results params) 10 ≤ 10
    ∧ sort ∈ ["stars"; "forks"; "updated"; "help-wanted-issues"]
    ∧ (if bool_decide (sort_by params
                       ∈ ["stars"; "forks"; "updated"; "help-wanted-issues"])
       then sort = sort_by params
       else sort = "stars").
Proof.
  eexists. split; [reflexivity |]. split; [lia |].
  unfold sort_mapping. generalize (sort_by params). intros s.
  destruct (decide (s = "stars")) as [-> | H1]; [by split; compute_done |].
  destruct (decide (s = "forks")) as [-> | H2]; [by split; compute_done |].
  destruct (decide (s = "updated")) as [-> | H3]; [by split; compute_done |].
  destruct (decide (s = "help-wanted-issues")) as [-> | H4];
    [by split; compute_done |].
  rewrite !lookup_insert_ne, lookup_empty by done. simpl.
  split; [compute_done |].
  rewrite bool_decide_eq_false_2; [done |].
  rewrite !elem_of_cons, elem_of_nil. by intros [? | [? | [? | [? | []]]]].
Qed.

(** ** Provider records *)

(** X19. A provider item is accepted (a record is built from it)
    exactly when it is a dict that has the nine required keys and whose
    [license] is absent, false as a Python value, or a dict; any other
    item makes the search loop raise. *)
Theorem well_formed_item_spec item :
  well_formed_item item
  = match item with
    | JObj d =>
        forallb (λ key, bool_decide (is_Some (d !! key))) required_keys
        && license_accepted d
    | _ => false
    end.
Proof.
  unfold well_formed_item, repository_of, make_repository, bind, subscript,
    get_method, ret, raise, license_accepted.
  destruct item as [| | | | | d]; try done. simpl.
  repeat (match goal with
          | |- context [d !! ?k] =>
              lazymatch k with
              | "license" => fail
              | "description" => fail
              | "language" => fail
              | "topics" => fail
              | _ => destruct (d !! k) eqn:?; simpl; [| done]
              end
          end).
  rewrite ?bool_decide_eq_true_2 by (by eexists). simpl.
  destruct (d !! "license") as [[| [] | z | s | l | l] |]; simpl; try done.
  - by destruct (negb (z =? 0)).
  - by destruct (negb (Str.is_empty s)).
  - by destruct (negb (bool_decide (length l = 0%nat))).
  - by destruct (negb (bool_decide (size l = 0%nat))).
Qed.

(** X20. In the record built from an accepted item, the optional
    fields [description] and [language] are null when the item lacks
    them, [topics] is the empty list when absent, and [license] is the
    [spdx_id] of a non-empty license dict (null when the dict has none)
    and null for every other license entry; the README starts absent. *)
Theorem repository_optional_fields (d : gmap string json) repo :
  repository_of (JObj d) = inr repo →
  Repository.description repo = default JNull (d !! "description")
  ∧ Repository.language repo = default JNull (d !! "language")
  ∧ Repository.topics repo = default (JArr []) (d !! "topics")
  ∧ Repository.license repo = license_of d
  ∧ Repository.readme_content repo = None.
Proof.
  unfold repository_of, make_repository, bind, subscript, get_method, ret,
    raise, license_of. simpl.
  repeat (match goal with
          | |- context [d !! ?k] =>
              lazymatch k with
              | "license" => fail
              | "description" => fail
              | "language" => fail
              | "topics" => fail
              | _ => destruct (d !! k) eqn:?; simpl; [| done]
              end
          end).
  destruct (d !! "license") as [[| [] | z | s | l | l] |]; simpl;
    try (by intros [= <-]).
  - destruct (negb (z =? 0)); simpl; by intros [= <-].
  - destruct (negb (Str.is_empty s)); simpl; by intros [= <-].
  - destruct (negb (bool_decide (length l = 0%nat))); simpl; by intros [= <-].
  - destruct (negb (bool_decide (size l = 0%nat))); simpl; by intros [= <-].
Qed.

(** ** The stored README *)

Lemma length_slice_to_le n s : (String.length (Str.slice_to n s) ≤ n)%nat.
Proof.
  unfold Str.slice_to. revert s.
  induction n as [| n IH]; intros [| c s]; simpl; try lia.
  specialize (IH s). lia.
Qed.

Lemma truncate_readme_length decoded :
  (String.length (truncate_readme decoded) ≤ max_length + 23)%nat.
Proof.
  unfold truncate_readme.
  destruct (Nat.ltb_spec max_length (String.length decoded)); [| lia].
  rewrite length_append_str.
  pose proof (length_slice_to_le max_length decoded).
  assert (String.length truncation_marker = 23%nat) as -> by reflexivity.
  lia.
Qed.

(** ** The shape of the envelopes *)

Lemma repository_dict_keys repo :
  ∃ d, repository_dict repo = JObj d ∧ dom d = repository_keys.
Proof.
  unfold repository_dict. eexists. split; [reflexivity |].
  unfold repository_keys. rewrite !dom_insert_L, dom_empty_L. set_solver.
Qed.

Lemma format_output_keys repositories params :
  dom (format_output repositories (Some params))
  = success_keys (length repositories).
Proof.
  unfold format_output, success_keys. rewrite length_fmap.
  destruct repositories as [| repo repositories]; simpl;
    rewrite !dom_insert_L, dom_empty_L; set_solver.
Qed.

Lemma error_output_keys e error_type :
  dom (error_output e error_type) = failure_keys.
Proof.
  unfold error_output, failure_keys.
  rewrite !dom_insert_L, dom_empty_L. set_solver.
Qed.

Section Envelopes.

Context (remote : list request → request → response).
Context (b64decode : string → option (list Byte.byte)).
Context (decode_utf8 : list Byte.byte → option string).

(** X21. A run prints exactly one envelope. With exit code 0 it is on
    standard output, has [success] true, a [repositories] list whose
    entries all have the fourteen repository keys, [count] equal to the
    length of that list, and no other key but [suggestions] and
    [message] when the list is empty. With exit code 1 it is on
    standard error and has exactly the keys [success] (false), [error]
    and [error_type], the latter one of the three error types. *)
Theorem envelope_shapes parsed :
  let result := (run remote b64decode decode_utf8 parsed).1 in
  (exit_code result = 0 ∧ stderr result = None
   ∧ ∃ envelope results,
       stdout result = Some envelope
       ∧ envelope !! "success" = Some (JBool true)
       ∧ envelope !! "repositories" = Some (JArr results)
       ∧ envelope !! "count" = Some (JInt (Z.of_nat (length results)))
       ∧ dom envelope = success_keys (length results)
       ∧ Forall (λ v, ∃ d, v = JObj d ∧ dom d = repository_keys) results)
  ∨ (exit_code result = 1 ∧ stdout result = None
     ∧ ∃ envelope error_type,
         stderr result = Some envelope
         ∧ envelope !! "success" = Some (JBool false)
         ∧ envelope !! "error_type" = Some (JStr error_type)
         ∧ error_type ∈ error_types
         ∧ dom envelope = failure_keys).
Proof.
  cbv zeta.
  assert (Hfail : ∀ e,
            let result := report_error e in
            exit_code result = 1 ∧ stdout result = None
            ∧ ∃ envelope error_type,
                stderr result = Some envelope
                ∧ envelope !! "success" = Some (JBool false)
                ∧ envelope !! "error_type" = Some (JStr error_type)
                ∧ error_type ∈ error_types
                ∧ dom envelope = failure_keys).
  { intros e. simpl. split; [done |]. split; [done |].
    eexists _, _. split; [done |].
    destruct (error_output_lookup e
                (if is_ValueError e then "validation_error"
                 else if is_RuntimeError e then "api_error"
                 else "unexpected_error")) as (-> & -> & _).
    split; [done |]. split; [done |]. split; [| apply error_output_keys].
    destruct (is_ValueError e), (is_RuntimeError e); compute_done. }
  unfold run, main_try. destruct parsed as [e | params].
  - right. apply (Hfail e).
  - unfold bind.
    destruct (search_repositories remote b64decode decode_utf8 params [])
      as [[e | repos] calls].
    + right. apply (Hfail e).
    + left. simpl. split; [done |]. split; [done |].
      exists (format_output repos (Some params)), (repository_dict <$> repos).
      split; [done |]. split; [apply format_output_success |].
      split; [apply format_output_repositories |].
      rewrite length_fmap.
      split; [apply format_output_count |].
      split; [apply format_output_keys |].
      apply Forall_fmap, Forall_forall. intros repo _.
      apply repository_dict_keys.
Qed.

(** X22. A stored README never has more than 5023 characters: 5000
    of the text and the 23 of the marker. *)
Theorem readme_length_bound full_name calls stored :
  (_fetch_readme remote b64decode decode_utf8 full_name calls).1
  = inr (Some stored) →
  (String.length stored ≤ 5000 + 23)%nat.
Proof.
  unfold _fetch_readme, catch, fetch_readme_try, bind, client_get,
    raise_for_status, response_json, get_method, raise, ret.
  destruct (remote calls (ReadmeRequest full_name)) as [msg | sc text body];
    simpl; [done |].
  destruct (sc =? 404); simpl; [done |].
  destruct (is_success sc); simpl; [| done].
  destruct body as [msg | data]; simpl; [done |].
  destruct data as [| | | | | d]; simpl; try done.
  destruct (truthy _); simpl; [| done].
  destruct (default _ _); simpl; try done.
  destruct (b64decode _); simpl; [| done].
  destruct (decode_utf8 _) as [decoded |]; simpl; [| done].
  intros [= <-]. apply (truncate_readme_length decoded).
Qed.

(** X25. A README resource answered with a success status whose
    JSON object has no [content], or a [content] that is false as a
    Python value (empty text, null, 0, empty list), gives an absent
    README: nothing is decoded. *)
Theorem readme_without_content full_name calls status_code text
    (d : gmap string json) :
  remote calls (ReadmeRequest full_name)
  = Reply status_code text (Loaded (JObj d)) →
  is_success status_code = true →
  truthy (default (JStr EmptyString) (d !! "content")) = false →
  _fetch_readme remote b64decode decode_utf8 full_name calls
  = (inr None, calls ++ [ReadmeRequest full_name]).
Proof.
  intros Hr Hs Hc.
  unfold _fetch_readme, catch, fetch_readme_try, bind, client_get,
    raise_for_status, response_json, get_method, raise, ret.
  rewrite Hr. simpl.
  assert (H404 : (status_code =? 404) = false).
  { unfold is_success in Hs. apply andb_true_iff in Hs as [_ H2]. lia. }
  rewrite H404, Hs. simpl. by rewrite Hc.
Qed.

(** X23. When [parse_parameters] raises, whatever the document, the
    run reports that exception on standard error with exit code 1,
    prints nothing on standard output and sends no request; a text that
    is not JSON is a [validation_error] whose message starts with
    [Invalid JSON: ]. *)
Theorem parse_failure_sends_nothing parameters e :
  parse_parameters parameters = Some (inl e) →
  main remote b64decode decode_utf8 parameters = Some (report_error e, [])
  ∧ exit_code (report_error e) = 1
  ∧ stdout (report_error e) = None
  ∧ (∀ msg, parameters = LoadError msg →
            stderr (report_error e)
            = Some (error_output (ValueError ("Invalid JSON: " +:+ msg))
                      "validation_error")).
Proof.
  intros Hparse. unfold main. rewrite Hparse. split; [done |].
  split; [done |]. split; [done |].
  intros msg ->. simpl in Hparse. by injection Hparse as <-.
Qed.

End Envelopes.

(** ** The further theorems at the samples *)

Lemma fewer_keywords_two_tokens_witness :
  fewer_fires (default_parameters "Python  Web framework tools") = true
  ∧ Str.split (Str.join " " (take 2 (Str.split "Python  Web framework tools")))
    = ["Python"; "Web"].
Proof.
  split; [reflexivity |].
  destruct (fewer_keywords_two_tokens
              (default_parameters "Python  Web framework tools"))
    as (_ & Hsplit & _); [reflexivity |].
  exact Hsplit.
Defined.

Lemma topic_loop_first_match_witness :
  Str.contains "api" "rapid prototyping" = true
  ∧ topic_loop topic_suggestions "rapid prototyping" []
    = ["Try adding topic filter: topic:" +:+ Str.dquote +:+ "api"
         +:+ Str.dquote].
Proof.
  split; [reflexivity |].
  apply (topic_loop_first_match (take 5 topic_suggestions) "api" "api"
           (drop 6 topic_suggestions) "rapid prototyping" []);
    [| reflexivity].
  intros k t Hin. simpl in Hin.
  repeat (apply elem_of_cons in Hin as [[= -> ->] | Hin]; [reflexivity |]).
  by apply not_elem_of_nil in Hin.
Defined.

Lemma token_precedence_witness :
  Samples.empty_github_token !! "GITHUB_TOKEN" = Some EmptyString
  ∧ init_token None Samples.empty_github_token (GhRaises "PermissionError")
    = inr (Some "ghp_second")
  ∧ init_token None Samples.both_tokens GhFileNotFound
    = inr (Some "ghp_first").
Proof.
  split; [reflexivity |]. split.
  - apply (token_precedence None Samples.empty_github_token
             (GhRaises "PermissionError") "ghp_second"); [reflexivity |].
    right. right. by repeat split.
  - apply (token_precedence None Samples.both_tokens GhFileNotFound
             "ghp_first"); [reflexivity |].
    right. left. by split.
Defined.

Lemma token_from_gh_witness :
  init_token None ∅ (GhCompleted 0 ("gho_abc" +:+ Str.newline))
  = inr (Some "gho_abc").
Proof.
  apply (token_from_gh None ∅ EmptyString "gho_abc" Str.newline);
    reflexivity.
Defined.

Lemma no_token_no_authorization_witness :
  gh_gives_nothing (GhCompleted 1 "not logged in") = true
  ∧ ∃ headers,
      client_headers (Some EmptyString) ∅ (GhCompleted 1 "not logged in")
      = inr headers
      ∧ headers !! "Authorization" = None.
Proof.
  split; [reflexivity |].
  destruct (no_token_no_authorization (Some EmptyString) ∅
              (GhCompleted 1 "not logged in"))
    as (headers & Hh & Hauth & _); try reflexivity.
  exists headers. by split.
Defined.

Lemma search_refused_api_error_witness :
  search_refused
    (Samples.refusing_provider [] (search_request_of (default_parameters "x")))
  = true
  ∧ ∃ envelope,
      run Samples.refusing_provider Demo.b64decode Demo.decode_ascii
        (inr (default_parameters "x"))
      = ({| stdout := None; stderr := Some envelope; exit_code := 1 |},
         [search_request_of (default_parameters "x")])
      ∧ envelope !! "error"
        = Some (JStr "GitHub API error: 403 - API rate limit exceeded").
Proof.
  split; [reflexivity |].
  destruct (search_refused_api_error Samples.refusing_provider Demo.b64decode
              Demo.decode_ascii (default_parameters "x"))
    as (envelope & Hrun & _ & _ & Herr); [reflexivity |].
  exists envelope. split; [exact Hrun | exact Herr].
Defined.

Lemma search_body_not_json_witness :
  ∃ envelope,
    run Samples.html_provider Demo.b64decode Demo.decode_ascii
      (inr (default_parameters "x"))
    = ({| stdout := None; stderr := Some envelope; exit_code := 1 |},
       [search_request_of (default_parameters "x")])
    ∧ envelope !! "error_type" = Some (JStr "validation_error")
    ∧ envelope !! "error" = Some (JStr "Expecting value").
Proof.
  apply (search_body_not_json_validation_error Samples.html_provider
           Demo.b64decode Demo.decode_ascii (default_parameters "x") 200
           "<html>" "Expecting value"); reflexivity.
Defined.

Lemma run_after_json_witness :
  normalizable (JObj Samples.hits_body) = true
  ∧ exit_code (Samples.run (inr (default_parameters "x"))).1 = 0.
Proof.
  split; [vm_compute; reflexivity |].
  pose proof (run_after_json Samples.provider Demo.b64decode Demo.decode_ascii
                (default_parameters "x") 200 "{}" (JObj Samples.hits_body)
                eq_refl eq_refl) as H.
  cbv zeta in H.
  assert (Hn : normalizable (JObj Samples.hits_body) = true)
    by (vm_compute; reflexivity).
  rewrite Hn in H. exact (proj1 H).
Defined.

Lemma readme_requests_per_item_witness :
  (Samples.run (inr (default_parameters "x"))).2
  = [search_request_of (default_parameters "x");
     ReadmeRequest (JStr "octo/bare"); ReadmeRequest (JStr "octo/odd");
     ReadmeRequest (JStr "octo/bare")].
Proof.
  destruct (readme_requests_per_item Samples.provider Demo.b64decode
              Demo.decode_ascii (default_parameters "x") 200 "{}"
              (JObj Samples.hits_body))
    as (items & Hitems & Hcalls & _);
    [reflexivity | reflexivity | reflexivity | vm_compute; reflexivity |].
  unfold Samples.run. rewrite Hcalls. assert (items = Samples.hits) as ->.
  { vm_compute in Hitems. by injection Hitems as <-. }
  vm_compute. reflexivity.
Defined.

Lemma no_readme_without_include_witness :
  include_readme Samples.quick_parameters = false
  ∧ (Samples.run (inr Samples.quick_parameters)).2
    = [SearchRequest "parser" "stars" "desc" 10].
Proof.
  split; [reflexivity |].
  destruct (no_readme_without_include Samples.provider Demo.b64decode
              Demo.decode_ascii Samples.quick_parameters)
    as [Hcalls _]; [reflexivity |].
  exact Hcalls.
Defined.

Lemma repository_optional_fields_witness :
  ∃ repo,
    repository_of (Demo.item "bare" "octo/bare") = inr repo
    ∧ Repository.description repo = JNull
    ∧ Repository.license repo = JStr "MIT"
    ∧ Repository.topics repo = JArr [JStr "cli"].
Proof.
  destruct (repository_of (Demo.item "bare" "octo/bare")) as [e | repo] eqn:E;
    [vm_compute in E; discriminate |].
  exists repo. split; [reflexivity |].
  destruct (repository_optional_fields _ repo E)
    as (Hd & _ & Ht & Hl & _).
  rewrite Hd, Ht, Hl. repeat split; vm_compute; reflexivity.
Defined.

Lemma readme_length_bound_witness :
  ∃ stored,
    (Demo.fetch_readme (JStr "octo/long") []).1 = inr (Some stored)
    ∧ (String.length stored ≤ 5000 + 23)%nat.
Proof.
  assert (Hfetch : ∃ stored, (Demo.fetch_readme (JStr "octo/long") []).1
                             = inr (Some stored))
    by (eexists; vm_compute; reflexivity).
  destruct Hfetch as [stored Hs]. exists stored. split; [exact Hs |].
  exact (readme_length_bound Demo.provider Demo.b64decode Demo.decode_ascii
           (JStr "octo/long") [] stored Hs).
Defined.

Lemma parse_failure_sends_nothing_witness :
  parse_parameters (LoadError "Expecting value")
  = Some (inl (ValueError "Invalid JSON: Expecting value"))
  ∧ Demo.main (LoadError "Expecting value")
    = Some (report_error (ValueError "Invalid JSON: Expecting value"), []).
Proof.
  split; [reflexivity |].
  apply (parse_failure_sends_nothing Demo.provider Demo.b64decode
           Demo.decode_ascii (LoadError "Expecting value")).
  reflexivity.
Defined.

Lemma repositories_in_provider_order_witness :
  normalizable (JObj Samples.hits_body) = true
  ∧ ∃ repos,
      stdout (Samples.run (inr (default_parameters "x"))).1
      = Some (format_output repos (Some (default_parameters "x")))
      ∧ length repos = 3%nat.
Proof.
  split; [vm_compute; reflexivity |].
  destruct (repositories_in_provider_order Samples.provider Demo.b64decode
              Demo.decode_ascii (default_parameters "x") 200 "{}"
              (JObj Samples.hits_body))
    as (items & repos & Hitems & Hout & _ & Hlen & _);
    [reflexivity | reflexivity | vm_compute; reflexivity |].
  exists repos. split; [exact Hout |]. rewrite Hlen.
  vm_compute in Hitems. by injection Hitems as <-.
Defined.

Lemma readme_without_content_witness :
  Samples.empty_readme_provider [] (ReadmeRequest (JStr "octo/empty"))
  = Reply 200 "{}" (Loaded (JObj Samples.empty_readme_body))
  ∧ _fetch_readme Samples.empty_readme_provider Demo.b64decode
      Demo.decode_ascii (JStr "octo/empty") []
    = (inr None, [ReadmeRequest (JStr "octo/empty")]).
Proof.
  split; [reflexivity |].
  apply (readme_without_content Samples.empty_readme_provider Demo.b64decode
           Demo.decode_ascii (JStr "octo/empty") [] 200 "{}"
           Samples.empty_readme_body); reflexivity.
Defined.

(** ** Documents that are not objects *)

Section Documents.

Context (remote : list request → request → response).
Context (b64decode : string → option (list Byte.byte)).
Context (decode_utf8 : list Byte.byte → option string).

(** C8, at the documents [null], [true], [false] and the numbers, which
    have no key [keywords]: the membership test raises [TypeError], no
    [ValueError] is raised, and [main] reports [unexpected_error], not
    [validation_error]. The same happens where the test finds the text
    but no key can be read: a list with the element [keywords], a text
    that contains it. Lists and texts without it are reported as
    [validation_error], as objects without the key are. In every case
    the exit code is 1 and no request is sent. *)
Theorem missing_keywords_unexpected_error :
  reports_failure (main remote b64decode decode_utf8 (Loaded JNull))
    "unexpected_error"
  ∧ (∀ b, reports_failure (main remote b64decode decode_utf8
                             (Loaded (JBool b))) "unexpected_error")
  ∧ (∀ z, reports_failure (main remote b64decode decode_utf8
                             (Loaded (JInt z))) "unexpected_error")
  ∧ reports_failure (main remote b64decode decode_utf8
                       (Loaded (JArr [JStr "keywords"]))) "unexpected_error"
  ∧ reports_failure (main remote b64decode decode_utf8
                       (Loaded (JStr "my keywords"))) "unexpected_error"
  ∧ reports_failure (main remote b64decode decode_utf8 (Loaded (JArr [])))
      "validation_error"
  ∧ reports_failure (main remote b64decode decode_utf8 (Loaded (JStr "abc")))
      "validation_error"
  ∧ reports_failure (main remote b64decode decode_utf8 (Loaded (JObj ∅)))
      "validation_error".
Proof.
  assert (Hkind : ∀ e ty,
            (if is_ValueError e then "validation_error"
             else if is_RuntimeError e then "api_error"
             else "unexpected_error") = ty →
            reports_failure (Some (report_error e, [])) ty).
  { intros e ty <-. eexists. split; [reflexivity |].
    unfold error_output. by simplify_map_eq. }
  repeat split; intros; by apply Hkind.
Qed.

End Documents.
